(** * adlfs/core.py: the Azure Data Lake filesystem layer, embedded in Rocq

    The development follows [src/adlfs/core.py]:
    - Python values (strings as byte strings, [int], exceptions, parsed
      JSON) as far as the module uses them;
    - the HTTP boundary: every call of [requests.get/head/put/patch/post]
      that the library accepts is recorded, with the arguments the module
      hands over, in a log, and answered by a provider function; a call
      with a header value that is no string raises InvalidHeader;
    - [AzureBlobFileSystem] objects live in a store and are referred to by
      reference, since [AzureBlobFile] keeps [self.fs] and reads the
      filesystem's fields at the time a request is built;
    - the methods of [AzureBlobFileSystem], [AzureBlobFile] and
      [AzureDatalakeFileSystem.size] as computations in a state and
      exception monad. *)

From Stdlib Require Import ZArith String Ascii List Lia.
From stdpp Require Import base option list functions gmap strings pretty.

Local Open Scope string_scope.
Local Open Scope Z_scope.

(** ** Exceptions and results *)

Inductive exn : Type :=
| HTTPError (status : Z)      (* requests.exceptions.HTTPError *)
| KeyError (key : string)
| KeyErrorResponse            (* KeyError(f'{response}') raised by ls *)
| TypeError
| ValueError
| AttributeError
| IndexError
| NameError (name : string)
| InvalidHeader.               (* requests.exceptions.InvalidHeader *)

Inductive result (A : Type) : Type :=
| Ok (a : A)
| Raise (e : exn).
Arguments Ok {A} a.
Arguments Raise {A} e.

Definition is_ok {A} (r : result A) : bool :=
  match r with Ok _ => true | Raise _ => false end.

(** ** Python strings *)

Module PyStr.

Fixpoint drop (n : nat) (s : string) : string :=
  match n, s with
  | O, _ => s
  | S _, EmptyString => EmptyString
  | S n', String _ s' => drop n' s'
  end.

Definition is_empty (s : string) : bool :=
  match s with EmptyString => true | String _ _ => false end.

(** [s.startswith(p)] *)
Fixpoint startswith (p s : string) : bool :=
  match p, s with
  | EmptyString, _ => true
  | String _ _, EmptyString => false
  | String a p', String b s' => bool_decide (a = b) && startswith p' s'
  end.

(** [s.rstrip(c)] for a one-character argument *)
Fixpoint rstrip (c : ascii) (s : string) : string :=
  match s with
  | EmptyString => EmptyString
  | String a s' =>
      let r := rstrip c s' in
      if is_empty r && bool_decide (a = c) then EmptyString else String a r
  end.

(** [s.split(sep)[0]]: the part before the first occurrence of [sep],
    the whole string when [sep] does not occur. *)
Fixpoint split_head (sep s : string) : string :=
  if startswith sep s then EmptyString
  else match s with
       | EmptyString => EmptyString
       | String a s' => String a (split_head sep s')
       end.

(** [s.split(c)] for a one-character separator: never the empty list. *)
Fixpoint split (c : ascii) (s : string) : list string :=
  match s with
  | EmptyString => [EmptyString]
  | String a s' =>
      match split c s' with
      | [] => [EmptyString]
      | p :: ps => if bool_decide (a = c) then EmptyString :: p :: ps
                   else String a p :: ps
      end
  end.

(** [sep.join(parts)] *)
Fixpoint join (sep : string) (parts : list string) : string :=
  match parts with
  | [] => EmptyString
  | [p] => p
  | p :: ps => p +:+ sep +:+ join sep ps
  end.

Definition lower_ascii (a : ascii) : ascii :=
  let n := nat_of_ascii a in
  if (Nat.leb 65 n && Nat.leb n 90)%bool then ascii_of_nat (n + 32) else a.

Fixpoint lower (s : string) : string :=
  match s with
  | EmptyString => EmptyString
  | String a s' => String (lower_ascii a) (lower s')
  end.

(** Whitespace that [int()] strips: tab to carriage return, the four
    separators 0x1c to 0x1f, and the space. *)
Definition is_space (a : ascii) : bool :=
  let n := nat_of_ascii a in
  ((Nat.leb 9 n && Nat.leb n 13) || (Nat.leb 28 n && Nat.leb n 32))%bool.

Fixpoint lstrip_space (s : string) : string :=
  match s with
  | EmptyString => EmptyString
  | String a s' => if is_space a then lstrip_space s' else s
  end.

Fixpoint rstrip_space (s : string) : string :=
  match s with
  | EmptyString => EmptyString
  | String a s' =>
      let r := rstrip_space s' in
      if is_empty r && is_space a then EmptyString else String a r
  end.

Definition digit_of (a : ascii) : option Z :=
  let n := nat_of_ascii a in
  if (Nat.leb 48 n && Nat.leb n 57)%bool then Some (Z.of_nat n - 48) else None.

(** The digits of a decimal literal, single underscores allowed between
    digits ([prev] tells whether the previous character was a digit). *)
Fixpoint digits (acc : Z) (prev : bool) (s : string) : option Z :=
  match s with
  | EmptyString => if prev then Some acc else None
  | String a s' =>
      match digit_of a with
      | Some d => digits (10 * acc + d) true s'
      | None =>
          if bool_decide (a = "_"%char) && prev then digits acc false s'
          else None
      end
  end.

(** [int(s)] for a string: [None] stands for ValueError. *)
Definition to_int (s : string) : option Z :=
  match rstrip_space (lstrip_space s) with
  | String "-" s' => Z.opp <$> digits 0 false s'
  | String "+" s' => digits 0 false s'
  | s' => digits 0 false s'
  end.

(** [str(n)] for an [int] *)
Definition of_int (n : Z) : string := pretty n.

(** [str((a, b))] for a pair of [int]s *)
Definition of_int_pair (p : Z * Z) : string :=
  "(" +:+ of_int p.1 +:+ ", " +:+ of_int p.2 +:+ ")".

End PyStr.

(** ** Parsed JSON, as [response.json()] returns it

    JSON numbers are integers here; objects are association lists in the
    order of the document, with the operations of a Python [dict]. *)

#[local] Unset Elimination Schemes.
Inductive json : Type :=
| JNull
| JBool (b : bool)
| JInt (z : Z)
| JStr (s : string)
| JList (l : list json)
| JDict (d : list (string * json)).
#[local] Set Elimination Schemes.

Module Dict.
Section Ops.
Context {V : Type}.

Fixpoint get (k : string) (d : list (string * V)) : option V :=
  match d with
  | [] => None
  | (k', v) :: d' => if bool_decide (k' = k) then Some v else get k d'
  end.

Definition has (k : string) (d : list (string * V)) : bool :=
  match get k d with Some _ => true | None => false end.

Fixpoint replace (k : string) (v : V) (d : list (string * V)) : list (string * V) :=
  match d with
  | [] => []
  | (k', v') :: d' =>
      (k', if bool_decide (k' = k) then v else v') :: replace k v d'
  end.

(** [d[k] = v]: an existing key keeps its place, a new one goes last. *)
Definition set (k : string) (v : V) (d : list (string * V)) : list (string * V) :=
  if has k d then replace k v d else d ++ [(k, v)].

(** [d.pop(k)], the remaining dictionary *)
Fixpoint remove (k : string) (d : list (string * V)) : list (string * V) :=
  match d with
  | [] => []
  | (k', v') :: d' =>
      if bool_decide (k' = k) then remove k d' else (k', v') :: remove k d'
  end.
End Ops.
End Dict.

(** Truth value of a JSON value in a Python condition *)
Definition truthy (v : json) : bool :=
  match v with
  | JNull => false
  | JBool b => b
  | JInt z => negb (z =? 0)
  | JStr s => negb (PyStr.is_empty s)
  | JList l => match l with [] => false | _ => true end
  | JDict d => match d with [] => false | _ => true end
  end.

(** [v == s] for a string literal [s] *)
Definition eq_str (v : json) (s : string) : bool :=
  match v with
  | JStr s' => bool_decide (s' = s)
  | _ => false
  end.

(** [int(v)] *)
Definition py_int (v : json) : result Z :=
  match v with
  | JInt z => Ok z
  | JBool b => Ok (if b then 1 else 0)
  | JStr s => match PyStr.to_int s with Some z => Ok z | None => Raise ValueError end
  | JNull | JList _ | JDict _ => Raise TypeError
  end.

(** [v[k]] for a string key [k] *)
Definition subscript (v : json) (k : string) : result json :=
  match v with
  | JDict d => match Dict.get k d with Some x => Ok x | None => Raise (KeyError k) end
  | _ => Raise TypeError
  end.

(** The items a [for] loop over [v] visits *)
Definition iterate (v : json) : result (list json) :=
  match v with
  | JList l => Ok l
  | JDict d => Ok (map (λ kv, JStr kv.1) d)
  | JStr s => Ok (map (λ a, JStr (String a EmptyString)) (list_ascii_of_string s))
  | JNull | JBool _ | JInt _ => Raise TypeError
  end.

(** [len(v)] *)
Definition py_len (v : json) : result nat :=
  match v with
  | JList l => Ok (length l)
  | JDict d => Ok (length d)
  | JStr s => Ok (String.length s)
  | JNull | JBool _ | JInt _ => Raise TypeError
  end.

Example to_int_examples :
  PyStr.to_int "1024" = Some 1024 ∧ PyStr.to_int " -5 " = Some (-5) ∧
  PyStr.to_int "1_000" = Some 1000 ∧ PyStr.to_int "" = None ∧
  PyStr.to_int "1__0" = None ∧ PyStr.to_int "12a" = None.
Proof. repeat split; reflexivity. Qed.

Example of_int_pair_example : PyStr.of_int_pair (0, 9) = "(0, 9)".
Proof. reflexivity. Qed.

Example split_join_example :
  PyStr.split "/" "a/b//c" = ["a"; "b"; ""; "c"] ∧
  PyStr.join "/" ["a"; "b"; ""; "c"] = "a/b//c" ∧
  PyStr.rstrip "/" "a/b//" = "a/b" ∧
  PyStr.split_head "://" "abfs://x/y" = "abfs".
Proof. repeat split; reflexivity. Qed.

(** ** The HTTP boundary

    A request is the argument list of one call into [requests]; the
    [data] argument is kept as the object the caller hands over: bytes, or
    the [io.BytesIO] buffer itself (contents and position), or a form. *)

Record BytesIO : Type := { getvalue : string; tell : nat }.

Module BytesIO.
Definition empty : BytesIO := {| getvalue := ""; tell := 0 |}.

Fixpoint take (n : nat) (s : string) : string :=
  match n, s with
  | O, _ => EmptyString
  | S n', EmptyString => String Ascii.zero (take n' EmptyString)
  | S n', String a s' => String a (take n' s')
  end.

(** [b.write(data)]: overwrite at the position (zero filling a gap),
    then advance the position. *)
Definition write (b : BytesIO) (data : string) : BytesIO :=
  let n := String.length data in
  {| getvalue := take (tell b) (getvalue b) +:+ data
                 +:+ PyStr.drop (tell b + n) (getvalue b);
     tell := (tell b + n)%nat |}.

(** [b.seek(0)] *)
Definition seek0 (b : BytesIO) : BytesIO :=
  {| getvalue := getvalue b; tell := 0 |}.

(** The bytes [b.read()] returns: those from the position to the end.
    This is what [requests] sends for a file-like [data]. *)
Definition read (b : BytesIO) : string :=
  PyStr.drop (tell b) (getvalue b).
End BytesIO.

Inductive verb : Type := GET | HEAD | PUT | PATCH | POST.

(** Values of headers and query parameters as the module builds them *)
Inductive scalar : Type :=
| SStr (s : string)
| SInt (z : Z)
| SBool (b : bool)
| SList (l : list string).

Inductive body : Type :=
| NoBody
| Bytes (b : string)
| Stream (buffer : BytesIO)
| Form (fields : gmap string string).

Record request : Type := {
  method : verb;
  url : string;
  headers : gmap string scalar;
  params : gmap string scalar;
  data : body }.

Record response : Type := {
  status_code : Z;
  content : string;
  resp_headers : list (string * string);
  resp_json : option json           (* [None]: the body is no JSON document *) }.

(** The answer of the OAuth token endpoint, [None] for an absent key *)
Record token_grant : Type := {
  grant_token_type : option string;
  grant_expires_in : option Z;
  grant_ext_expires_in : option Z;
  grant_access_token : option string }.

(** [requests.codes.ok] *)
Definition codes_ok : Z := 200.

(** [response.raise_for_status()] raises for 4xx and 5xx only. *)
Definition raise_for_status (r : response) : result unit :=
  if (400 <=? status_code r) && (status_code r <? 600)
  then Raise (HTTPError (status_code r)) else Ok tt.

(** [response.headers[k]]: the case-insensitive dictionary of [requests]
    looks the lower-cased key up, and a missing key is reported in that
    form. *)
Fixpoint header_get (k : string) (h : list (string * string)) : result string :=
  match h with
  | [] => Raise (KeyError (PyStr.lower k))
  | (k', v) :: h' =>
      if bool_decide (PyStr.lower k' = PyStr.lower k) then Ok v else header_get k h'
  end.

(** [requests.utils.check_header_validity] on every header: the value
    has to be a string. *)
Definition is_text (v : scalar) : bool :=
  match v with SStr _ => true | _ => false end.

Definition check_header_validity (h : gmap string scalar) : bool :=
  bool_decide (map_Forall (λ _ v, is_text v = true) h).

(** ** Objects and the world *)

(** The fields of an [AzureBlobFileSystem] instance *)
Record BlobFS : Type := {
  tenant_id : string;
  client_id : string;
  client_secret : string;
  storage_account : string;
  filesystem : string;
  token : option string;            (* [None] is Python's None *)
  token_type : option string;
  dns_suffix : string }.

Inductive file_mode : Type := rb | wb.

(** The fields of an [AzureBlobFile] instance: [fs] is a reference to the
    filesystem object, not a copy of it. *)
Record BlobFile : Type := {
  fs : nat;
  path : string;
  mode : file_mode;
  blocksize : Z;
  buffer : BytesIO;
  initiated : bool;
  closed : bool }.

Record world : Type := {
  filesystems : nat → BlobFS;
  files : nat → BlobFile;
  fresh : nat;                      (* the next unused file reference *)
  log : list request }.

(** ** The state and exception monad *)

Definition M (A : Type) : Type := world → result A * world.

Global Instance M_ret : MRet M := λ A a w, (Ok a, w).
Global Instance M_bind : MBind M := λ A B k c w,
  match c w with
  | (Ok a, w') => k a w'
  | (Raise e, w') => (Raise e, w')
  end.

Global Instance M_fmap : FMap M := λ A B f c w,
  match c w with
  | (Ok a, w') => (Ok (f a), w')
  | (Raise e, w') => (Raise e, w')
  end.

Definition lift {A} (r : result A) : M A := λ w, (r, w).
Definition raise {A} (e : exn) : M A := lift (Raise e).

(** [try: c except <matching>: h] *)
Definition try_except {A} (c : M A) (matching : exn → bool) (h : M A) : M A :=
  λ w, match c w with
       | (Raise e, w') => if matching e then h w' else (Raise e, w')
       | r => r
       end.

Definition is_KeyError (e : exn) : bool :=
  match e with KeyError _ | KeyErrorResponse => true | _ => false end.

Fixpoint mapM {A B} (f : A → result B) (l : list A) : result (list B) :=
  match l with
  | [] => Ok []
  | x :: l' =>
      match f x with
      | Raise e => Raise e
      | Ok y => match mapM f l' with
                | Raise e => Raise e
                | Ok ys => Ok (y :: ys)
                end
      end
  end.

Definition get_fs (r : nat) : M BlobFS := λ w, (Ok (filesystems w r), w).
Definition set_fs (r : nat) (o : BlobFS) : M unit := λ w,
  (Ok tt, {| filesystems := <[r := o]> (filesystems w); files := files w;
          fresh := fresh w; log := log w |}).
Definition get_file (r : nat) : M BlobFile := λ w, (Ok (files w r), w).
Definition set_file (r : nat) (o : BlobFile) : M unit := λ w,
  (Ok tt, {| filesystems := filesystems w; files := <[r := o]> (files w);
          fresh := fresh w; log := log w |}).
Definition new_file (o : BlobFile) : M nat := λ w,
  (Ok (fresh w), {| filesystems := filesystems w; files := <[fresh w := o]> (files w);
                    fresh := S (fresh w); log := log w |}).
Definition record (rq : request) : M unit := λ w,
  (Ok tt, {| filesystems := filesystems w; files := files w;
          fresh := fresh w; log := (log w ++ [rq])%list |}).
Definition history : M (list request) := λ w, (Ok (log w), w).

(** ** class AzureBlobFileSystem *)

Section Adlfs.

(** The storage provider answers each request, knowing the requests
    issued before it; the token endpoint answers the POST of [connect]
    ([Raise] when [.json()] fails). [root_marker] is the class attribute
    inherited from [fsspec.AbstractFileSystem]. *)
Variable provider : list request → request → response.
Variable token_endpoint : list request → request → result token_grant.
Variable root_marker : string.

(** One call into [requests] against the storage account. While it
    prepares the request the library checks the headers and raises
    InvalidHeader for a value that is neither [str] nor [bytes]; nothing
    is sent then. *)
Definition send (rq : request) : M response :=
  if check_header_validity (headers rq) then
    past ← history;
    _ ← record rq;
    mret (provider past rq)
  else raise InvalidHeader.

(** [if not response.status_code == requests.codes.ok:
       response.raise_for_status()] *)
Definition check_status (r : response) : M unit :=
  if status_code r =? codes_ok then mret tt else lift (raise_for_status r).

Definition protocol : string := "abfs".

Definition _strip_protocol (path : string) : string :=
  let path := PyStr.rstrip "/" path in
  let path :=
    if PyStr.startswith protocol path then
      let protocol_ := PyStr.split_head "://" path in
      PyStr.drop (String.length protocol_ + 3) path
    else path in
  if PyStr.is_empty path then root_marker else path.

(** [connect]: the fields are assigned in the order of the source, so a
    missing key leaves the earlier assignments in place. *)
Definition connect_request (o : BlobFS) : request :=
  {| method := POST;
     url := "https://login.microsoftonline.com/" +:+ tenant_id o
            +:+ "/oauth2/v2.0/token";
     headers := {[ "Content-Type" := SStr "application/x-www-form-urlencoded" ]};
     params := ∅;
     data := Form (<["grant_type" := "client_credentials"]>
                  (<["scope" := "https://storage.azure.com/.default"]>
                  (<["client_secret" := client_secret o]>
                  {[ "client_id" := client_id o ]}))) |}.

Definition connect (self : nat) : M unit :=
  o ← get_fs self;
  let rq := connect_request o in
  past ← history;
  _ ← record rq;
  grant ← lift (token_endpoint past rq);
  tt_ ← lift (match grant_token_type grant with
              | Some t => Ok t | None => Raise (KeyError "token_type") end);
  _ ← set_fs self
        {| tenant_id := tenant_id o; client_id := client_id o;
           client_secret := client_secret o; storage_account := storage_account o;
           filesystem := filesystem o; token := token o;
           token_type := Some tt_; dns_suffix := dns_suffix o |};
  _ ← lift (match grant_expires_in grant with
            | Some t => Ok t | None => Raise (KeyError "expires_in") end);
  _ ← lift (match grant_ext_expires_in grant with
            | Some t => Ok t | None => Raise (KeyError "ext_expires_in") end);
  tok ← lift (match grant_access_token grant with
              | Some t => Ok t | None => Raise (KeyError "access_token") end);
  set_fs self
    {| tenant_id := tenant_id o; client_id := client_id o;
       client_secret := client_secret o; storage_account := storage_account o;
       filesystem := filesystem o; token := Some tok;
       token_type := Some tt_; dns_suffix := dns_suffix o |}.

(** [f'Bearer {self.token}'] *)
Definition bearer (o : BlobFS) : string :=
  "Bearer " +:+ match token o with Some t => t | None => "None" end.

Definition nonempty (s : option string) : option string :=
  match s with
  | Some s' => if PyStr.is_empty s' then None else Some s'
  | None => None
  end.

(** [_make_headers]: [encoding] is accepted and not used. [kwargs] binds
    each name once, and none of the method's own parameters. *)
Definition _make_headers (o : BlobFS) (content_length : option scalar)
    (content_type media_type : option string) (range : option (Z * Z))
    (encoding : option string)
    (kwargs : list (string * scalar)) : gmap string scalar :=
  let headers : gmap string scalar :=
    <["Authorization" := SStr (bearer o)]> {[ "x-ms-version" := SStr "2019-02-02" ]} in
  let headers := match nonempty content_type with
                 | Some t => <["Content-Type" := SStr t]> headers
                 | None => headers end in
  let headers := match nonempty media_type with
                 | Some t => <["Media-Type" := SStr t]> headers
                 | None => headers end in
  let headers := match range with
                 | Some r => <["Range" := SStr (PyStr.of_int_pair r)]> headers
                 | None => headers end in
  let headers := match content_length with
                 | Some l => <["Content-Length" := l]> headers
                 | None => headers end in
  foldl (λ h kv, <[kv.1 := kv.2]> h) headers kwargs.

(** [_parse_path] returns the empty list or the joined string. *)
Definition _parse_path (path : string) : scalar :=
  let fparts := PyStr.split "/" path in
  if Nat.eqb (length fparts) 0 then SList [] else SStr (PyStr.join "/" fparts).

Definition _make_url (o : BlobFS) (path : option string) : string :=
  match nonempty path with
  | None => "https://" +:+ storage_account o +:+ dns_suffix o +:+ "/" +:+ filesystem o
  | Some p => "https://" +:+ storage_account o +:+ dns_suffix o +:+ "/" +:+ filesystem o
              +:+ "/" +:+ p
  end.

Definition form_urlencoded : string := "application/x-www-form-urlencoded".

(** The body of the detail loop of [ls] for one entry [path_] *)
Definition normalize (path_ : json) : result json :=
  match path_ with
  | JDict d =>
      let d :=
        if Dict.has "isDirectory" d
           && match Dict.get "isDirectory" d with
              | Some v => eq_str v "true" | None => false end
        then Dict.set "type" (JStr "directory") d
        else Dict.set "type" (JStr "file") d in
      match Dict.get "contentLength" d with
      | Some v =>
          match py_int v with
          | Ok n => Ok (JDict (Dict.set "size" (JInt n) (Dict.remove "contentLength" d)))
          | Raise e => Raise e
          end
      | None => Ok (JDict (Dict.set "size" (JInt 0) d))
      end
  | _ => Raise AttributeError     (* path_.keys() *)
  end.

(** [pathlist] after the loop has updated its entries in place *)
Definition updated (pathlist : json) (entries : list json) : json :=
  match pathlist with JList _ => JList entries | _ => pathlist end.

(** [pathlist[0]] *)
Definition first (pathlist : json) : result json :=
  match pathlist with
  | JList (x :: _) => Ok x
  | JList [] => Raise IndexError
  | JStr (String a _) => Ok (JStr (String a EmptyString))
  | JStr EmptyString => Raise IndexError
  | JDict _ => Raise (KeyError "0")
  | _ => Raise TypeError
  end.

(** The part of [ls] that follows [response = response.json()] *)
Definition ls_paths (response : json) (detail : bool) : result json :=
  match subscript response "paths" with
  | Raise e => Raise e
  | Ok pathlist =>
      if truthy pathlist then
        match iterate pathlist with
        | Raise e => Raise e
        | Ok items =>
            if detail then
              match mapM normalize items with
              | Raise e => Raise e
              | Ok entries =>
                  let pathlist := updated pathlist entries in
                  match py_len pathlist with
                  | Raise e => Raise e
                  | Ok n => if Nat.eqb n 1 then first pathlist else Ok pathlist
                  end
              end
            else
              match mapM (λ path_, subscript path_ "name") items with
              | Raise e => Raise e
              | Ok files_ => Ok (JList files_)
              end
        end
      else Ok (JList [])
  end.

(** The [except KeyError] clause of [ls]; a function that ends without
    [return] gives [None]. *)
Definition ls_except (response : json) : result json :=
  match response with
  | JDict d =>
      if Dict.has "error" d then
        match subscript response "error" with
        | Raise e => Raise e
        | Ok err =>
            match subscript err "code" with
            | Raise e => Raise e
            | Ok code => if eq_str code "PathNotFound" then Ok (JList []) else Ok JNull
            end
        end
      else Raise KeyErrorResponse
  | _ => Raise AttributeError     (* response.keys() *)
  end.

(** [ls]: before [response.json()] returns no statement raises KeyError,
    so the [try] is entered there. *)
Definition ls_request (o : BlobFS) (path : string) (resource : string)
    (recursive : bool) : request :=
  let path := _strip_protocol path in
  let directory := _parse_path path in
  let url_ := _make_url o None in
  let headers_ := _make_headers o None (Some form_urlencoded) None None None [] in
  let payload : gmap string scalar :=
    <["directory" := directory]>
      (<["recursive" := SBool recursive]> {[ "resource" := SStr resource ]}) in
  {| method := GET; url := url_; headers := headers_; params := payload;
     data := NoBody |}.

Definition ls (self : nat) (path : string) (detail : bool)
    (resource : string) (recursive : bool) : M json :=
  o ← get_fs self;
  response ← send (ls_request o path resource recursive);
  _ ← check_status response;
  response ← lift (match resp_json response with
                   | Some j => Ok j | None => Raise ValueError end);
  try_except (lift (ls_paths response detail)) is_KeyError
             (lift (ls_except response)).

(** [info]: the bare [except] catches whatever [ls] raises. *)
Definition info_request (o : BlobFS) (path : string) : request :=
  let url_ := _make_url o (Some path) in
  let headers_ := _make_headers o None (Some form_urlencoded) None None None [] in
  let payload : gmap string scalar := {[ "action" := SStr "getStatus" ]} in
  {| method := HEAD; url := url_; headers := headers_; params := payload;
     data := NoBody |}.

Definition info (self : nat) (path : string) : M json :=
  o ← get_fs self;
  let path := _strip_protocol path in
  response ← send (info_request o path);
  early ← (if status_code response =? codes_ok then mret None
           else try_except (Some <$> ls self path false "filesystem" false)
                           (λ _, true)
                           (_ ← lift (raise_for_status response); mret None));
  match early with
  | Some detail => mret detail
  | None =>
      let h := resp_headers response in
      cl ← lift (header_get "Content-Length" h);
      size_ ← lift (py_int (JStr cl));
      type_ ← lift (header_get "x-ms-resource-type" h);
      mret (JDict [("name", JStr path); ("size", JInt size_); ("type", JStr type_)])
  end.

(** ** class AzureBlobFile *)

(** [x or 0] for an optional [int] *)
Definition or_zero (x : option Z) : Z :=
  match x with Some z => z | None => 0 end.

Definition fetch_range_request (o : BlobFS) (f : BlobFile)
    (start end_ : option Z) : request :=
  let headers_ :=
    match start, end_ with
    | None, None => _make_headers o None (Some form_urlencoded) None None None []
    | _, _ =>
        let start := or_zero start in
        let end_ := or_zero end_ in
        _make_headers o None (Some form_urlencoded) None (Some (start, end_ - 1))
                      None []
    end in
  let url_ := _make_url o None +:+ "/" +:+ path f in
  {| method := GET; url := url_; headers := headers_; params := ∅;
     data := NoBody |}.

Definition _fetch_range (self : nat) (start end_ : option Z) : M string :=
  f ← get_file self;
  o ← get_fs (fs f);
  response ← send (fetch_range_request o f start end_);
  let data_ := content response in
  mret data_.

Definition octet_stream : string := "application/octet-stream".

Definition initiate_upload_request (o : BlobFS) (f : BlobFile) : request :=
  let headers_ := _make_headers o (Some (SStr "0")) (Some form_urlencoded)
                                (Some octet_stream) None None [] in
  let url_ := _make_url o (Some (path f)) in
  let params_ : gmap string scalar := {[ "resource" := SStr "file" ]} in
  {| method := PUT; url := url_; headers := headers_; params := params_;
     data := Stream (buffer f) |}.

Definition _initiate_upload (self : nat) : M unit :=
  f ← get_file self;
  o ← get_fs (fs f);
  response ← send (initiate_upload_request o f);
  check_status response.

Definition _get_size (self : nat) : M json :=
  f ← get_file self;
  detail ← info (fs f) (path f);
  lift (subscript detail "size").

Definition with_buffer (f : BlobFile) (b : BytesIO) : BlobFile :=
  {| fs := fs f; path := path f; mode := mode f; blocksize := blocksize f;
     buffer := b; initiated := initiated f; closed := closed f |}.

(** The append call of [_upload_chunk]; [data_] is [self.buffer.getvalue()]. *)
Definition append_request (o : BlobFS) (f : BlobFile) (data_ : string) : request :=
  let l := Z.of_nat (String.length data_) in
  let headers_ := _make_headers o (Some (SInt l)) None None None None [] in
  let url_ := _make_url o (Some (path f)) in
  let params_ : gmap string scalar :=
    <["position" := SInt 0]> {[ "action" := SStr "append" ]} in
  {| method := PATCH; url := url_; headers := headers_; params := params_;
     data := Bytes data_ |}.

(** The flush call of [_upload_chunk], without [data] *)
Definition flush_request (o : BlobFS) (f : BlobFile) (data_ : string) : request :=
  let l := Z.of_nat (String.length data_) in
  let url_ := _make_url o (Some (path f)) in
  let params_ : gmap string scalar :=
    <["position" := SInt l]> {[ "action" := SStr "flush" ]} in
  let headers_ := _make_headers o (Some (SInt 0)) None (Some octet_stream) None None [] in
  {| method := PATCH; url := url_; headers := headers_; params := params_;
     data := NoBody |}.

Definition _upload_chunk (self : nat) : M unit :=
  f ← get_file self;
  _ ← set_file self (with_buffer f (BytesIO.seek0 (buffer f)));
  let data_ := getvalue (buffer f) in
  current_size ← _get_size self;
  o ← get_fs (fs f);
  response ← send (append_request o f data_);
  _ ← check_status response;
  o ← get_fs (fs f);
  response ← send (flush_request o f data_);
  check_status response.

Definition single_shot_request (o : BlobFS) (f : BlobFile) : request :=
  let headers_ := _make_headers o None None None None None [] in
  let headers_ := <["Content-Length" := SStr "0"]> headers_ in
  let url_ := _make_url o (Some (path f)) in
  let params_ : gmap string scalar := {[ "resource" := SStr "file" ]} in
  {| method := PUT; url := url_; headers := headers_; params := params_;
     data := Stream (buffer f) |}.

Definition upload_single_shot (self : nat) : M unit :=
  f ← get_file self;
  o ← get_fs (fs f);
  response ← send (single_shot_request o f);
  check_status response.

(** ** The buffered file protocol around [AzureBlobFile] *)

(** The default block size of the buffered layer, 5 MiB *)
Definition default_blocksize : Z := 5 * 2 ^ 20.

(** Modelled from the spec: [fsspec.spec.AbstractBufferedFile], the
    base class whose [write], [flush] and [close] drive
    [_initiate_upload] and [_upload_chunk], is not part of src/. After
    sections 3, 4.3 and 4.4: opening constructs a handle bound to the
    filesystem and issues no request. *)
Definition _open (self : nat) (path_ : string) (mode_ : file_mode) : M nat :=
  new_file {| fs := self; path := path_; mode := mode_;
              blocksize := default_blocksize; buffer := BytesIO.empty;
              initiated := false; closed := false |}.

(** Modelled from the spec: the flush of the buffered layer (section
    4.3). The remote object is created once, before the first chunk
    goes out; then the buffer is uploaded as one chunk and emptied. *)
Definition flush (self : nat) : M unit :=
  f ← get_file self;
  _ ← (if initiated f then mret tt
       else _ ← set_file self
                  {| fs := fs f; path := path f; mode := mode f;
                     blocksize := blocksize f; buffer := buffer f;
                     initiated := true; closed := closed f |};
            _initiate_upload self);
  _ ← _upload_chunk self;
  f ← get_file self;
  set_file self (with_buffer f BytesIO.empty).

(** Modelled from the spec: writes accumulate in the buffer and are
    flushed when a block is full (sections 2 and 3). *)
Definition write (self : nat) (data_ : string) : M nat :=
  f ← get_file self;
  if closed f then raise ValueError
  else match mode f with
       | rb => raise ValueError
       | wb =>
           let b := BytesIO.write (buffer f) data_ in
           _ ← set_file self (with_buffer f b);
           _ ← (if blocksize f <=? Z.of_nat (tell b) then flush self else mret tt);
           mret (String.length data_)
       end.

(** Modelled from the spec: closing in write mode uploads the bytes
    still buffered; closing in read mode issues no request (section
    4.3). *)
Definition close (self : nat) : M unit :=
  f ← get_file self;
  if closed f then mret tt
  else
    _ ← match mode f with
        | rb => mret tt
        | wb => if PyStr.is_empty (getvalue (buffer f)) then mret tt else flush self
        end;
    f ← get_file self;
    set_file self {| fs := fs f; path := path f; mode := mode f;
                     blocksize := blocksize f; buffer := buffer f;
                     initiated := initiated f; closed := true |}.

End Adlfs.

(** ** class AzureDatalakeFileSystem (Gen1) *)

Module Gen1.

(** What a name can be bound to inside [size] *)
Inductive pyobj : Type :=
| Str (s : string)
| Self
| ModuleLevel (name : string)
| Builtin (name : string).

(** The names bound at the top level of core.py *)
Definition module_names : list string :=
  [ "print_function"; "division"; "absolute_import"; "logging"; "requests";
    "re"; "lib"; "AzureDLFileSystem"; "AzureDLPath"; "AbstractFileSystem";
    "AbstractBufferedFile"; "infer_storage_options"; "stringify_path";
    "tokenize"; "np"; "logger"; "AzureDatalakeFileSystem";
    "AzureBlobFileSystem"; "AzureBlobFile";
    "__name__"; "__doc__"; "__package__"; "__loader__"; "__spec__";
    "__file__"; "__cached__"; "__builtins__" ].

(** The functions and constants of the [builtins] module *)
Definition builtin_names : list string :=
  [ "abs"; "all"; "any"; "ascii"; "bin"; "bool"; "breakpoint"; "bytearray";
    "bytes"; "callable"; "chr"; "classmethod"; "compile"; "complex";
    "delattr"; "dict"; "dir"; "divmod"; "enumerate"; "eval"; "exec";
    "filter"; "float"; "format"; "frozenset"; "getattr"; "globals";
    "hasattr"; "hash"; "help"; "hex"; "id"; "input"; "int"; "isinstance";
    "issubclass"; "iter"; "len"; "list"; "locals"; "map"; "max";
    "memoryview"; "min"; "next"; "object"; "oct"; "open"; "ord"; "pow";
    "print"; "property"; "range"; "repr"; "reversed"; "round"; "set";
    "setattr"; "slice"; "sorted"; "staticmethod"; "str"; "sum"; "super";
    "tuple"; "type"; "vars"; "zip"; "__import__";
    "None"; "True"; "False"; "Ellipsis"; "NotImplemented"; "__debug__";
    "BaseException"; "Exception"; "KeyError"; "TypeError"; "ValueError";
    "AttributeError"; "NameError"; "FileNotFoundError"; "OSError" ].

Definition mem (x : string) (l : list string) : bool :=
  existsb (λ y, bool_decide (y = x)) l.

(** Name lookup: the local scope, the module, the builtins *)
Definition load_name (locals : list (string * pyobj)) (name : string) : result pyobj :=
  match Dict.get name locals with
  | Some v => Ok v
  | None =>
      if mem name module_names then Ok (ModuleLevel name)
      else if mem name builtin_names then Ok (Builtin name)
      else Raise (NameError name)
  end.

Section Store.

(** [self.fs.info] of [azure.datalake.store.AzureDLFileSystem] *)
Variable adl_info : pyobj → bool → result json.

Definition info (path : pyobj) (invalidate_cache : bool) : result json :=
  match adl_info path invalidate_cache with
  | Raise e => Raise e
  | Ok info_ =>
      match subscript info_ "length" with
      | Raise e => Raise e
      | Ok l =>
          match info_ with
          | JDict d => Ok (JDict (Dict.set "size" l d))
          | _ => Raise TypeError
          end
      end
  end.

(** [return self.info(adl_path)['length']] with the parameters
    [self] and [path] in scope *)
Definition size (path : string) : result json :=
  let locals := [("self", Self); ("path", Str path)] in
  match load_name locals "adl_path" with
  | Raise e => Raise e
  | Ok arg =>
      match info arg true with
      | Raise e => Raise e
      | Ok info_ => subscript info_ "length"
      end
  end.

End Store.

End Gen1.

(** ** Worlds and providers used in the examples *)

(** The world [w] after the requests [rqs] have been issued *)
Definition logged (w : world) (rqs : list request) : world :=
  {| filesystems := filesystems w; files := files w; fresh := fresh w;
     log := log w ++ rqs |}.

Module Mock.

Definition fs0 : BlobFS :=
  {| tenant_id := "tenant"; client_id := "client"; client_secret := "secret";
     storage_account := "acct"; filesystem := "data"; token := Some "tok1";
     token_type := Some "Bearer"; dns_suffix := ".dfs.core.windows.net" |}.

(** A write handle on [dir/a.txt] that has buffered [hello world] *)
Definition file0 : BlobFile :=
  {| fs := 0; path := "dir/a.txt"; mode := wb; blocksize := 5 * 2 ^ 20;
     buffer := {| getvalue := "hello world"; tell := 11 |};
     initiated := false; closed := false |}.

Definition w0 : world :=
  {| filesystems := λ _, fs0; files := λ _, file0; fresh := 1; log := [] |}.

(** A provider that accepts everything and reports an empty file *)
Definition accepting : list request → request → response := λ _ _,
  {| status_code := 200; content := "";
     resp_headers := [("Content-Length", "0"); ("x-ms-resource-type", "file")];
     resp_json := None |}.

Definition not_found_json : json :=
  JDict [("error", JDict [("code", JStr "PathNotFound");
                          ("message", JStr "The specified path does not exist.")])].

(** A provider that answers every request with 404 and the
    PathNotFound document *)
Definition rejecting : list request → request → response := λ _ _,
  {| status_code := 404; content := "PathNotFound"; resp_headers := [];
     resp_json := Some not_found_json |}.

(** A provider whose listing passes the status check and carries the
    PathNotFound document, while the HEAD probe gets 404 *)
Definition missing_path : list request → request → response := λ _ rq,
  {| status_code := match method rq with GET => 200 | _ => 404 end;
     content := "PathNotFound"; resp_headers := [];
     resp_json := Some not_found_json |}.

(** A provider that lists the given entries *)
Definition listing (entries : list json) : list request → request → response :=
  λ _ _, {| status_code := 200; content := ""; resp_headers := [];
            resp_json := Some (JDict [("paths", JList entries)]) |}.

Definition no_token : list request → request → result token_grant :=
  λ _ _, Raise ValueError.

Definition grants (tok : string) : list request → request → result token_grant :=
  λ _ _, Ok {| grant_token_type := Some "Bearer"; grant_expires_in := Some 3599;
               grant_ext_expires_in := Some 3599; grant_access_token := Some tok |}.

End Mock.

(** ** The vocabulary of the properties *)

(** The buffer stands at its end, where a write leaves it. *)
Definition at_end (b : BytesIO) : Prop :=
  (String.length (getvalue b) ≤ tell b)%nat.

(** The entry had [isDirectory] set to the string 'true'. *)
Definition is_directory (d : list (string * json)) : bool :=
  match Dict.get "isDirectory" d with
  | Some v => eq_str v "true"
  | None => false
  end.

(** What the detail loop leaves in an entry that came as [src] *)
Definition normalized (src e : json) : Prop :=
  ∃ d d' n,
    src = JDict d ∧ e = JDict d'
    ∧ Dict.get "type" d' = Some (JStr (if is_directory d then "directory" else "file"))
    ∧ Dict.get "size" d' = Some (JInt n)
    ∧ match Dict.get "contentLength" d with
      | None => n = 0
      | Some v => py_int v = Ok n
      end.

Definition two_entries : list json :=
  [JDict [("name", JStr "dir/a.txt"); ("contentLength", JStr "11")];
   JDict [("name", JStr "dir/sub"); ("isDirectory", JStr "true")]].

(** The document reports PathNotFound: an object without 'paths' whose
    'error' carries the code 'PathNotFound'. *)
Definition path_not_found (j : json) : Prop :=
  ∃ top err code,
    j = JDict top ∧ Dict.get "paths" top = None
    ∧ Dict.get "error" top = Some (JDict err)
    ∧ Dict.get "code" err = Some code ∧ eq_str code "PathNotFound" = true.

(** The provider answers every request the way the service reports a
    path that does not exist: status 404 and a PathNotFound document. *)
Definition answers_path_not_found (provider : list request → request → response) : Prop :=
  ∀ past rq,
    status_code (provider past rq) = 404
    ∧ ∃ j, resp_json (provider past rq) = Some j ∧ path_not_found j.

(** The listing request, whatever it asks for, passes the status check
    and is answered with a PathNotFound document. *)
Definition lists_path_not_found (provider : list request → request → response) : Prop :=
  ∀ past rq, method rq = GET →
    raise_for_status (provider past rq) = Ok tt
    ∧ ∃ j, resp_json (provider past rq) = Some j ∧ path_not_found j.

(** The provider answers every request with OK and every HEAD with the
    two headers [info] reads. *)
Definition cooperative (provider : list request → request → response) : Prop :=
  ∀ past rq,
    status_code (provider past rq) = codes_ok
    ∧ (method rq = HEAD →
       ∃ cl n t,
         header_get "Content-Length" (resp_headers (provider past rq)) = Ok cl
         ∧ py_int (JStr cl) = Ok n
         ∧ header_get "x-ms-resource-type" (resp_headers (provider past rq)) = Ok t).

(** ** The write cycle *)

(** [open(path, 'wb')], [write(payload)], [close()] *)
Definition write_cycle (provider : list request → request → response)
    (root_marker : string) (self : nat) (path_ payload : string) : M unit :=
  f ← _open self path_ wb;
  _ ← write provider root_marker f payload;
  close provider root_marker f.

(** The request carries the bearer token [tok]. *)
Definition authorized (tok : string) (rq : request) : Prop :=
  headers rq !! "Authorization" = Some (SStr ("Bearer " +:+ tok)).

(** From [w] to [w'] the filesystem objects are untouched, the handles
    stay bound to their filesystems, and every request issued carries the
    token that [self] holds. *)
Definition sends (self : nat) (w w' : world) : Prop :=
  filesystems w' = filesystems w
  ∧ (∀ f, fs (files w' f) = fs (files w f))
  ∧ ∃ new, log w' = (log w ++ new)%list
           ∧ Forall (λ rq, headers rq !! "Authorization"
                           = Some (SStr (bearer (filesystems w self)))) new.

(** The handle [f] is bound to the filesystem [self]. *)
Definition bound_to (self : nat) (f : nat) (w : world) : Prop :=
  fs (files w f) = self.

(** A call on the filesystem itself or on one of its handles *)
Inductive call : Type :=
| Ls (path : string) (detail : bool) (resource : string) (recursive : bool)
| Info (path : string)
| FetchRange (file : nat) (start end_ : option Z)
| InitiateUpload (file : nat)
| GetSize (file : nat)
| UploadChunk (file : nat)
| UploadSingleShot (file : nat).

Definition handle_of (c : call) : option nat :=
  match c with
  | Ls _ _ _ _ | Info _ => None
  | FetchRange f _ _ | InitiateUpload f | GetSize f | UploadChunk f
  | UploadSingleShot f => Some f
  end.

(** The world after the call, whether it returned or raised *)
Definition run_call (provider : list request → request → response)
    (root_marker : string) (self : nat) (c : call) (w : world) : world :=
  match c with
  | Ls path detail resource recursive =>
      (ls provider root_marker self path detail resource recursive w).2
  | Info path => (info provider root_marker self path w).2
  | FetchRange f start end_ => (_fetch_range provider f start end_ w).2
  | InitiateUpload f => (_initiate_upload provider f w).2
  | GetSize f => (_get_size provider root_marker f w).2
  | UploadChunk f => (_upload_chunk provider root_marker f w).2
  | UploadSingleShot f => (upload_single_shot provider f w).2
  end.

(** [later w w']: [w'] is reached from [w] by calls on the filesystem
    [self] and on handles that are bound to it when they are called. *)
Inductive later (provider : list request → request → response)
    (root_marker : string) (self : nat) : world → world → Prop :=
| later_now w : later provider root_marker self w w
| later_call w w' c :
    later provider root_marker self w w' →
    (∀ f, handle_of c = Some f → bound_to self f w') →
    later provider root_marker self w (run_call provider root_marker self c w').

(** [Mock.w0] after a second [connect] that is granted the token [tok2] *)
Definition reconnected : world := (connect (Mock.grants "tok2") 0 Mock.w0).2.

(** [sep in s] *)
Fixpoint occurs (sep s : string) : bool :=
  PyStr.startswith sep s
  || match s with
     | EmptyString => false
     | String _ s' => occurs sep s'
     end.

(** The value the last binding of [k] in the keyword arguments gives *)
Fixpoint last_binding (k : string) (kwargs : list (string * scalar)) : option scalar :=
  match kwargs with
  | [] => None
  | (k', v) :: kwargs' =>
      match last_binding k kwargs' with
      | Some x => Some x
      | None => if bool_decide (k' = k) then Some v else None
      end
  end.

(** The parameters of [_make_headers]: a keyword of one of these names
    binds the parameter and is not part of [kwargs]. *)
Definition parameter_names : list string :=
  ["self"; "content_length"; "content_type"; "media_type"; "range"; "encoding"].

(** What Python can pass as [**kwargs]: each name once, none of them a
    parameter's. *)
Definition keyword_arguments (kwargs : list (string * scalar)) : Prop :=
  NoDup kwargs.*1 ∧ Forall (λ k, k ∉ parameter_names) kwargs.*1.

(** The names [_make_headers] itself can set *)
Definition header_names : list string :=
  ["x-ms-version"; "Authorization"; "Content-Type"; "Media-Type"; "Range";
   "Content-Length"].

(** A provider whose OK answers carry the given document *)
Definition answering (j : json) : list request → request → response :=
  λ _ _, {| status_code := 200; content := ""; resp_headers := [];
            resp_json := Some j |}.

Definition filesystem_not_found : list (string * json) :=
  [("error", JDict [("code", JStr "FilesystemNotFound")])].

(** A provider that answers OK with the given headers *)
Definition with_headers (h : list (string * string)) :
    list request → request → response :=
  λ _ _, {| status_code := 200; content := ""; resp_headers := h;
            resp_json := None |}.

(** From [w] to [w'] only GET and HEAD requests were issued, and neither
    the filesystem objects nor the handles changed. *)
Definition quiet (w w' : world) : Prop :=
  filesystems w' = filesystems w ∧ files w' = files w ∧ fresh w' = fresh w
  ∧ ∃ new, log w' = (log w ++ new)%list
           ∧ Forall (λ rq, method rq = GET ∨ method rq = HEAD) new.

(** A provider that refuses the probe with 403 and the listing with 500 *)
Definition refusing : list request → request → response := λ _ rq,
  {| status_code := match method rq with HEAD => 403 | _ => 500 end;
     content := ""; resp_headers := []; resp_json := None |}.

(** The world once [_upload_chunk] has moved the buffer of [self] to
    position 0 *)
Definition rewound (self : nat) (w : world) : world :=
  {| filesystems := filesystems w;
     files := <[self := with_buffer (files w self)
                          (BytesIO.seek0 (buffer (files w self)))]> (files w);
     fresh := fresh w; log := log w |}.

(** A provider that answers the probe like [Mock.accepting] and refuses
    every PATCH with 403 *)
Definition read_only : list request → request → response := λ past rq,
  match method rq with
  | PATCH => {| status_code := 403; content := ""; resp_headers := [];
                resp_json := None |}
  | _ => Mock.accepting past rq
  end.

(** [AzureBlobFileSystem.__init__] on the new object [self]. The
    attribute [dns_suffix] is assigned only after [connect], which does
    not read it; until then the field holds the empty string. *)
Definition __init__ (token_endpoint : list request → request → result token_grant)
    (self : nat) (tenant_id_ client_id_ client_secret_ storage_account_
                  filesystem_ : string) (token_ : option string) : M unit :=
  _ ← set_fs self
        {| tenant_id := tenant_id_; client_id := client_id_;
           client_secret := client_secret_; storage_account := storage_account_;
           filesystem := filesystem_; token := token_; token_type := None;
           dns_suffix := "" |};
  _ ← connect token_endpoint self;
  o ← get_fs self;
  set_fs self
    {| tenant_id := tenant_id o; client_id := client_id o;
       client_secret := client_secret o; storage_account := storage_account o;
       filesystem := filesystem o; token := token o; token_type := token_type o;
       dns_suffix := ".dfs.core.windows.net" |}.

(** A token endpoint whose answer lacks 'ext_expires_in' *)
Definition short_grant : list request → request → result token_grant :=
  λ _ _, Ok {| grant_token_type := Some "MAC"; grant_expires_in := Some 3599;
               grant_ext_expires_in := None; grant_access_token := Some "tok2" |}.

(** * Properties *)

(** C10: [AzureDatalakeFileSystem.size] raises NameError for the unbound
    name [adl_path] on every path and never returns a size, whatever
    [info] answers, also where [info] on that path succeeds. *)
Theorem gen1_size_raises_NameError (adl_info : Gen1.pyobj → bool → result json)
    (path : string) :
  Gen1.size adl_info path = Raise (NameError "adl_path")
  ∧ (∀ v, Gen1.size adl_info path ≠ Ok v)
  ∧ (∀ v, Gen1.info adl_info (Gen1.Str path) true = Ok v →
          Gen1.size adl_info path = Raise (NameError "adl_path")).
Proof.
  assert (H : Gen1.size adl_info path = Raise (NameError "adl_path")) by reflexivity.
  split; [exact H|]. split; [|intros; exact H].
  intros v Hv. rewrite H in Hv. discriminate Hv.
Qed.

(** ** Headers *)

Ltac header_lookup :=
  unfold _make_headers; cbn [foldl];
  repeat match goal with
         | |- context [match ?x with _ => _ end] => destruct x
         end;
  repeat (rewrite lookup_insert_ne by done);
  first [apply lookup_insert_eq | apply lookup_singleton_eq | done].

Lemma make_headers_Authorization o cl ct mt r enc :
  _make_headers o cl ct mt r enc [] !! "Authorization" = Some (SStr (bearer o)).
Proof. header_lookup. Qed.

Lemma make_headers_Range o cl ct mt r enc :
  _make_headers o cl ct mt (Some r) enc [] !! "Range"
  = Some (SStr (PyStr.of_int_pair r)).
Proof. header_lookup. Qed.

Lemma make_headers_no_Range o cl ct mt enc :
  _make_headers o cl ct mt None enc [] !! "Range" = None.
Proof. header_lookup. Qed.

Lemma make_headers_Content_Length o l ct mt r enc :
  _make_headers o (Some l) ct mt r enc [] !! "Content-Length" = Some l.
Proof. header_lookup. Qed.

(** *** Which requests the library accepts *)

Lemma check_header_validity_spec h :
  check_header_validity h = true ↔ map_Forall (λ _ v, is_text v = true) h.
Proof. unfold check_header_validity. apply bool_decide_eq_true. Qed.

Lemma make_headers_text o cl ct mt r enc :
  match cl with Some v => is_text v | None => true end = true →
  check_header_validity (_make_headers o cl ct mt r enc []) = true.
Proof.
  intros Hcl. apply check_header_validity_spec. unfold _make_headers. cbn [foldl].
  assert (Hins : ∀ k s (h : gmap string scalar),
             map_Forall (λ _ v, is_text v = true) h →
             map_Forall (λ _ v, is_text v = true) (<[k := SStr s]> h)).
  { intros k s h Hh. apply map_Forall_insert_2; [reflexivity | exact Hh]. }
  destruct cl as [v|]; [apply map_Forall_insert_2; [exact Hcl|]|];
    destruct r; destruct (nonempty mt); destruct (nonempty ct);
    repeat apply Hins; apply map_Forall_empty.
Qed.

Lemma make_headers_not_text o z ct mt r enc :
  check_header_validity (_make_headers o (Some (SInt z)) ct mt r enc []) = false.
Proof.
  apply not_true_is_false. intros H. apply check_header_validity_spec in H.
  specialize (H "Content-Length" (SInt z)). cbv beta in H.
  discriminate H. unfold _make_headers. cbn [foldl]. apply lookup_insert_eq.
Qed.

Lemma ls_request_valid root_marker o path resource recursive :
  check_header_validity (headers (ls_request root_marker o path resource recursive))
  = true.
Proof. apply make_headers_text. reflexivity. Qed.

Lemma info_request_valid o path :
  check_header_validity (headers (info_request o path)) = true.
Proof. apply make_headers_text. reflexivity. Qed.

Lemma fetch_range_request_valid o f start end_ :
  check_header_validity (headers (fetch_range_request o f start end_)) = true.
Proof.
  unfold fetch_range_request. cbn [headers].
  destruct start, end_; apply make_headers_text; reflexivity.
Qed.

Lemma initiate_upload_request_valid o f :
  check_header_validity (headers (initiate_upload_request o f)) = true.
Proof. apply make_headers_text. reflexivity. Qed.

Lemma single_shot_request_valid o f :
  check_header_validity (headers (single_shot_request o f)) = true.
Proof.
  apply check_header_validity_spec. unfold single_shot_request. cbn [headers].
  apply map_Forall_insert_2; [reflexivity|].
  apply check_header_validity_spec, make_headers_text. reflexivity.
Qed.

Lemma append_request_invalid o f data_ :
  check_header_validity (headers (append_request o f data_)) = false.
Proof. apply make_headers_not_text. Qed.

(** What [send] does with a request whose headers are all text *)
Lemma send_text provider rq w :
  check_header_validity (headers rq) = true →
  send provider rq w
  = (Ok (provider (log w) rq),
     {| filesystems := filesystems w; files := files w; fresh := fresh w;
        log := log w ++ [rq] |}).
Proof. intros H. unfold send. rewrite H. reflexivity. Qed.

Lemma send_not_text provider rq w :
  check_header_validity (headers rq) = false →
  send provider rq w = (Raise InvalidHeader, w).
Proof. intros H. unfold send. rewrite H. reflexivity. Qed.

Ltac valid_request :=
  lazymatch goal with
  | |- check_header_validity (headers (ls_request _ _ _ _ _)) = true =>
      apply ls_request_valid
  | |- check_header_validity (headers (info_request _ _)) = true =>
      apply info_request_valid
  | |- check_header_validity (headers (fetch_range_request _ _ _ _)) = true =>
      apply fetch_range_request_valid
  | |- check_header_validity (headers (initiate_upload_request _ _)) = true =>
      apply initiate_upload_request_valid
  | |- check_header_validity (headers (single_shot_request _ _)) = true =>
      apply single_shot_request_valid
  end.

(** Run a computation: unfold the monad and let the requests with text
    headers through. *)
Ltac run_monad :=
  repeat (progress
            (cbv beta iota zeta delta
               [mbind M_bind mret M_ret fmap M_fmap get_file get_fs set_file
                lift raise try_except check_status];
             rewrite ?send_text by valid_request)).

(** The text Python gives a pair never has the form of a byte range. *)
Lemma of_int_pair_not_bytes (p : Z * Z) (s : string) :
  PyStr.of_int_pair p ≠ "bytes=" +:+ s.
Proof. unfold PyStr.of_int_pair. cbn [String.append]. discriminate. Qed.

(** ** Reading a range *)

(** C1: for every read handle, provider and range, [_fetch_range] issues
    its GET and returns [response.content] as the file data with no look
    at the status code: a 404 answer comes back as data, where the claim
    asks for a Transport error. *)
Theorem fetch_range_returns_body_whatever_status
    (provider : list request → request → response) (w : world) (self : nat)
    (start end_ : option Z) :
  let f := files w self in
  let rq := fetch_range_request (filesystems w (fs f)) f start end_ in
  _fetch_range provider self start end_ w
  = (Ok (content (provider (log w) rq)), logged w [rq]).
Proof. cbv zeta. unfold _fetch_range. run_monad. reflexivity. Qed.

(** At the failing input: the provider answers 404, the body is returned. *)
Example fetch_range_404 :
  (_fetch_range Mock.rejecting 0 (Some 0) (Some 10) Mock.w0).1 = Ok "PathNotFound".
Proof. reflexivity. Qed.

(** The sibling [_initiate_upload] does check the status on the same answer. *)
Example initiate_upload_404 :
  (_initiate_upload Mock.rejecting 0 Mock.w0).1 = Raise (HTTPError 404).
Proof. reflexivity. Qed.

(** C2: with both bounds given, the GET of [_fetch_range] carries the
    header Range set to the text of the pair [(start, end - 1)], which is
    [(start, end-1)] in parentheses and never [bytes=start-(end-1)]. *)
Theorem fetch_range_Range_header_is_pair_text
    (provider : list request → request → response) (w : world) (self : nat)
    (start end_ : Z) :
  let f := files w self in
  let rq := fetch_range_request (filesystems w (fs f)) f (Some start) (Some end_) in
  log (_fetch_range provider self (Some start) (Some end_) w).2 = (log w ++ [rq])%list
  ∧ method rq = GET
  ∧ headers rq !! "Range"
    = Some (SStr ("(" +:+ PyStr.of_int start +:+ ", " +:+ PyStr.of_int (end_ - 1) +:+ ")"))
  ∧ headers rq !! "Range"
    ≠ Some (SStr ("bytes=" +:+ PyStr.of_int start +:+ "-" +:+ PyStr.of_int (end_ - 1))).
Proof.
  cbv zeta. split; [unfold _fetch_range; run_monad; reflexivity|].
  split; [reflexivity|].
  assert (H : headers (fetch_range_request (filesystems w (fs (files w self)))
                         (files w self) (Some start) (Some end_)) !! "Range"
              = Some (SStr (PyStr.of_int_pair (start, end_ - 1)))).
  { unfold fetch_range_request. cbn [headers or_zero]. apply make_headers_Range. }
  split; [exact H|]. rewrite H. intros E.
  apply (of_int_pair_not_bytes (start, end_ - 1)
           (PyStr.of_int start +:+ "-" +:+ PyStr.of_int (end_ - 1))).
  congruence.
Qed.

(** At the failing input [start = 0], [end = 10] *)
Example fetch_range_0_10 :
  headers (fetch_range_request Mock.fs0 Mock.file0 (Some 0) (Some 10)) !! "Range"
  = Some (SStr "(0, 9)").
Proof. unfold fetch_range_request. cbn [headers or_zero]. apply make_headers_Range. Qed.

(** ** Creating the remote object *)

Lemma check_status_world r w : (check_status r w).2 = w.
Proof. unfold check_status. destruct (_ =? _); reflexivity. Qed.

(** *** The buffer handed over as [data] *)

Lemma drop_beyond s : ∀ n, (String.length s ≤ n)%nat → PyStr.drop n s = "".
Proof.
  induction s as [|a s IH]; intros [|n] H; cbn [PyStr.drop]; try reflexivity.
  - cbn [String.length] in H. lia.
  - apply IH. cbn [String.length] in H. lia.
Qed.

(** Nothing is read from a buffer that stands at its end. *)
Lemma read_at_end b : at_end b → BytesIO.read b = "".
Proof. intros H. apply drop_beyond, H. Qed.

Lemma length_take n : ∀ s, String.length (BytesIO.take n s) = n.
Proof.
  induction n as [|n IH]; intros [|a s]; cbn [BytesIO.take String.length];
    rewrite ?IH; reflexivity.
Qed.

Lemma length_app (s t : string) :
  String.length (s +:+ t) = (String.length s + String.length t)%nat.
Proof.
  induction s as [|a s IH]; [reflexivity|].
  change (String a s +:+ t) with (String a (s +:+ t)).
  cbn [String.length]. rewrite IH. reflexivity.
Qed.

(** A new buffer stands at its end, and every write to a buffer that
    stands at its end leaves it there: this is the state in which the
    buffered layer flushes. *)
Lemma empty_at_end : at_end BytesIO.empty.
Proof. unfold at_end. cbn. lia. Qed.

Lemma write_at_end b data_ : at_end b → at_end (BytesIO.write b data_).
Proof.
  unfold at_end, BytesIO.write. cbn [getvalue tell]. intros H.
  rewrite !length_app, length_take, drop_beyond by lia.
  cbn [String.length]. lia.
Qed.

(** C4: when [_initiate_upload] runs the buffer stands at its end, where
    every write leaves it. The one request is then a PUT with
    [resource=file] and Content-Length '0' whose data is the handle's
    buffer, and nothing is read from it: the request body is empty. *)
Theorem initiate_upload_puts_an_empty_body
    (provider : list request → request → response) (w : world) (self : nat) :
  let f := files w self in
  let rq := initiate_upload_request (filesystems w (fs f)) f in
  at_end (buffer f) →
  log (_initiate_upload provider self w).2 = (log w ++ [rq])%list
  ∧ method rq = PUT
  ∧ params rq = {[ "resource" := SStr "file" ]}
  ∧ headers rq !! "Content-Length" = Some (SStr "0")
  ∧ data rq = Stream (buffer f)
  ∧ BytesIO.read (buffer f) = "".
Proof.
  cbv zeta. intros Hend. split.
  - unfold _initiate_upload. run_monad. destruct (_ =? _); reflexivity.
  - repeat split. apply read_at_end, Hend.
Qed.

(** The handle has buffered [hello world] and stands at its end. *)
Lemma initiate_upload_puts_an_empty_body_witness :
  log (_initiate_upload Mock.accepting 0 Mock.w0).2
  = ([] ++ [initiate_upload_request Mock.fs0 Mock.file0])%list
  ∧ method (initiate_upload_request Mock.fs0 Mock.file0) = PUT
  ∧ params (initiate_upload_request Mock.fs0 Mock.file0) = {[ "resource" := SStr "file" ]}
  ∧ headers (initiate_upload_request Mock.fs0 Mock.file0) !! "Content-Length"
    = Some (SStr "0")
  ∧ data (initiate_upload_request Mock.fs0 Mock.file0)
    = Stream {| getvalue := "hello world"; tell := 11 |}
  ∧ BytesIO.read {| getvalue := "hello world"; tell := 11 |} = "".
Proof.
  apply (initiate_upload_puts_an_empty_body Mock.accepting Mock.w0 0).
  unfold at_end. cbn. lia.
Defined.

(** C5: [upload_single_shot] issues exactly one request, a PUT with
    [resource=file] and Content-Length '0' whose data is the handle's
    buffer as it stands. After a write the buffer stands at its end, so
    nothing is read from it: the body sent is empty, not the contents of
    the buffer. *)
Theorem upload_single_shot_sends_nothing_after_a_write
    (provider : list request → request → response) (w : world) (self : nat) :
  let f := files w self in
  let rq := single_shot_request (filesystems w (fs f)) f in
  at_end (buffer f) →
  getvalue (buffer f) ≠ "" →
  log (upload_single_shot provider self w).2 = (log w ++ [rq])%list
  ∧ method rq = PUT
  ∧ params rq = {[ "resource" := SStr "file" ]}
  ∧ headers rq !! "Content-Length" = Some (SStr "0")
  ∧ data rq = Stream (buffer f)
  ∧ BytesIO.read (buffer f) = ""
  ∧ BytesIO.read (buffer f) ≠ getvalue (buffer f).
Proof.
  cbv zeta. intros Hend Hne. split.
  - unfold upload_single_shot. run_monad. destruct (_ =? _); reflexivity.
  - repeat split. + apply read_at_end, Hend.
    + rewrite (read_at_end _ Hend). congruence.
Qed.

(** At the failing input: [hello world] has been written to the handle. *)
Lemma upload_single_shot_sends_nothing_after_a_write_witness :
  log (upload_single_shot Mock.accepting 0 Mock.w0).2
  = ([] ++ [single_shot_request Mock.fs0 Mock.file0])%list
  ∧ method (single_shot_request Mock.fs0 Mock.file0) = PUT
  ∧ params (single_shot_request Mock.fs0 Mock.file0) = {[ "resource" := SStr "file" ]}
  ∧ headers (single_shot_request Mock.fs0 Mock.file0) !! "Content-Length"
    = Some (SStr "0")
  ∧ data (single_shot_request Mock.fs0 Mock.file0)
    = Stream {| getvalue := "hello world"; tell := 11 |}
  ∧ BytesIO.read {| getvalue := "hello world"; tell := 11 |} = ""
  ∧ BytesIO.read {| getvalue := "hello world"; tell := 11 |} ≠ "hello world".
Proof.
  apply (upload_single_shot_sends_nothing_after_a_write Mock.accepting Mock.w0 0).
  - unfold at_end. cbn. lia.
  - discriminate.
Defined.

(** The sibling [_upload_chunk] rewinds the buffer and takes its whole
    contents before it builds the request. *)
Example upload_chunk_takes_the_whole_buffer :
  data (append_request Mock.fs0 Mock.file0 (getvalue (buffer Mock.file0)))
  = Bytes "hello world".
Proof. reflexivity. Qed.

(** ** Dictionaries *)

Module DictFacts.
Section Facts.
Context {V : Type}.
Implicit Types (d : list (string * V)) (k : string) (v : V).

Lemma has_get k d : Dict.has k d = true ↔ is_Some (Dict.get k d).
Proof.
  unfold Dict.has. destruct (Dict.get k d); split; intros H; eauto.
  - discriminate.
  - destruct H; discriminate.
Qed.

Lemma get_replace_eq k v d :
  Dict.has k d = true → Dict.get k (Dict.replace k v d) = Some v.
Proof.
  unfold Dict.has. induction d as [|[k' v'] d IH]; cbn; [discriminate|].
  destruct (bool_decide (k' = k)); [reflexivity | exact IH].
Qed.

Lemma get_replace_ne k k' v d :
  k ≠ k' → Dict.get k' (Dict.replace k v d) = Dict.get k' d.
Proof.
  intros Hne. induction d as [|[k0 v0] d IH]; cbn; [reflexivity|].
  destruct (bool_decide_reflect (k0 = k')) as [->|]; [|exact IH].
  rewrite bool_decide_eq_false_2 by congruence. reflexivity.
Qed.

Lemma get_app_ne k k' v d :
  k ≠ k' → Dict.get k' (d ++ [(k, v)]) = Dict.get k' d.
Proof.
  intros Hne. induction d as [|[k0 v0] d IH]; cbn.
  - rewrite bool_decide_eq_false_2 by congruence. reflexivity.
  - destruct (bool_decide (k0 = k')); [reflexivity | exact IH].
Qed.

Lemma get_app_eq k v d :
  Dict.get k d = None → Dict.get k (d ++ [(k, v)]) = Some v.
Proof.
  induction d as [|[k0 v0] d IH]; cbn.
  - rewrite bool_decide_eq_true_2 by reflexivity. reflexivity.
  - destruct (bool_decide (k0 = k)); [discriminate | exact IH].
Qed.

Lemma get_set_eq k v d : Dict.get k (Dict.set k v d) = Some v.
Proof.
  unfold Dict.set. destruct (Dict.has k d) eqn:H.
  - apply get_replace_eq, H.
  - apply get_app_eq. unfold Dict.has in H.
    destruct (Dict.get k d); [discriminate | reflexivity].
Qed.

Lemma get_set_ne k k' v d :
  k ≠ k' → Dict.get k' (Dict.set k v d) = Dict.get k' d.
Proof.
  intros Hne. unfold Dict.set. destruct (Dict.has k d).
  - apply get_replace_ne, Hne.
  - apply get_app_ne, Hne.
Qed.

Lemma get_remove_ne k k' d :
  k ≠ k' → Dict.get k' (Dict.remove k d) = Dict.get k' d.
Proof.
  intros Hne. induction d as [|[k0 v0] d IH]; cbn; [reflexivity|].
  destruct (bool_decide_reflect (k0 = k)) as [->|].
  - rewrite bool_decide_eq_false_2 by congruence. exact IH.
  - cbn. destruct (bool_decide (k0 = k')); [reflexivity | exact IH].
Qed.

Lemma get_remove_eq k d : Dict.get k (Dict.remove k d) = None.
Proof.
  induction d as [|[k0 v0] d IH]; cbn; [reflexivity|].
  destruct (bool_decide_reflect (k0 = k)) as [->|Hne]; [exact IH|].
  cbn. rewrite bool_decide_eq_false_2 by exact Hne. exact IH.
Qed.
End Facts.
End DictFacts.

(** ** Listing: the entries of the detail mode *)

Lemma normalize_normalized src e : normalize src = Ok e → normalized src e.
Proof.
  destruct src as [| | | | |d]; try discriminate. unfold normalize.
  assert (Hdir : (Dict.has "isDirectory" d
                  && match Dict.get "isDirectory" d with
                     | Some v => eq_str v "true" | None => false end)
                 = is_directory d).
  { unfold is_directory, Dict.has. destruct (Dict.get "isDirectory" d); reflexivity. }
  rewrite Hdir.
  set (d1 := if is_directory d then Dict.set "type" (JStr "directory") d
             else Dict.set "type" (JStr "file") d).
  assert (Htype : Dict.get "type" d1
                  = Some (JStr (if is_directory d then "directory" else "file"))).
  { subst d1. destruct (is_directory d); apply DictFacts.get_set_eq. }
  assert (Hcl : Dict.get "contentLength" d1 = Dict.get "contentLength" d).
  { subst d1. destruct (is_directory d); apply DictFacts.get_set_ne; discriminate. }
  rewrite Hcl. destruct (Dict.get "contentLength" d) as [v|] eqn:Hv.
  - destruct (py_int v) as [n|] eqn:Hn; [|discriminate].
    intros [= <-]. exists d, (Dict.set "size" (JInt n) (Dict.remove "contentLength" d1)), n.
    repeat split.
    + rewrite DictFacts.get_set_ne by discriminate.
      rewrite DictFacts.get_remove_ne by discriminate. exact Htype.
    + apply DictFacts.get_set_eq.
    + rewrite Hv. exact Hn.
  - intros [= <-]. exists d, (Dict.set "size" (JInt 0) d1), 0.
    repeat split.
    + rewrite DictFacts.get_set_ne by discriminate. exact Htype.
    + apply DictFacts.get_set_eq.
    + rewrite Hv. reflexivity.
Qed.

Lemma mapM_Forall2 {A B} (f : A → result B) (P : A → B → Prop) :
  (∀ a b, f a = Ok b → P a b) →
  ∀ l l', mapM f l = Ok l' → Forall2 P l l'.
Proof.
  intros Hf. induction l as [|a l IH]; cbn; intros l' H.
  - injection H as <-. constructor.
  - destruct (f a) as [b|] eqn:Hb; [|discriminate].
    destruct (mapM f l) as [bs|]; [|discriminate].
    injection H as <-. constructor; [apply Hf, Hb | apply IH; reflexivity].
Qed.


(** The result of the [try] block of [ls] on a nonempty list of entries *)
Lemma ls_paths_list top es :
  Dict.get "paths" top = Some (JList es) →
  (∀ es', mapM normalize es = Ok es' →
     ls_paths (JDict top) true
     = Ok (match es' with [e] => e | _ => JList es' end))
  ∧ (∀ names, mapM (λ path_, subscript path_ "name") es = Ok names →
     ls_paths (JDict top) false = Ok (JList names)).
Proof.
  intros Hp. unfold ls_paths, subscript at 1. rewrite Hp.
  split.
  - intros es' H. destruct es as [|e es].
    + injection H as <-. reflexivity.
    + cbn [truthy iterate]. rewrite H. cbn [updated py_len].
      destruct es' as [|e' [|e'' es']]; reflexivity.
  - intros names H. unfold subscript at 1. rewrite Hp. destruct es as [|e es].
    + injection H as <-. reflexivity.
    + cbn [truthy iterate]. rewrite H. reflexivity.
Qed.

Lemma mapM_length {A B} (f : A → result B) l l' :
  mapM f l = Ok l' → length l' = length l.
Proof.
  revert l'. induction l as [|a l IH]; cbn; intros l' H.
  - injection H as <-. reflexivity.
  - destruct (f a); [|discriminate]. destruct (mapM f l); [|discriminate].
    injection H as <-. cbn. f_equal. apply IH. reflexivity.
Qed.

(** What [ls] returns when the provider answers OK with a JSON object *)
Lemma ls_ok provider root_marker w self path detail resource recursive top :
  let r := provider (log w)
             (ls_request root_marker (filesystems w self) path resource recursive) in
  status_code r = codes_ok →
  resp_json r = Some (JDict top) →
  (ls provider root_marker self path detail resource recursive w).1
  = match ls_paths (JDict top) detail with
    | Raise e => if is_KeyError e then ls_except (JDict top) else Raise e
    | Ok v => Ok v
    end.
Proof.
  cbv zeta. intros Hs Hj. unfold ls. run_monad.
  rewrite Hs, Z.eqb_refl, Hj.
  destruct (ls_paths (JDict top) detail) as [v|e]; [reflexivity|].
  destruct (is_KeyError e); reflexivity.
Qed.

(** C7 (amended): every entry that the detail mode of [ls] produces has
    'type' equal to 'directory' when the source entry had isDirectory set
    to 'true' and to 'file' otherwise, and 'size' equal to 0 when the
    source entry had no contentLength and to [int(contentLength)]
    otherwise, which is non-negative exactly when contentLength is. *)
Theorem detail_entries_have_type_and_size (top : list (string * json))
    (es : list json) (r : json) :
  Dict.get "paths" top = Some (JList es) →
  ls_paths (JDict top) true = Ok r →
  ∃ es', Forall2 normalized es es'
         ∧ r = match es' with [e] => e | _ => JList es' end.
Proof.
  intros Hp Hr. destruct (mapM normalize es) as [es'|e] eqn:Hes.
  - exists es'. split.
    + exact (mapM_Forall2 normalize normalized normalize_normalized es es' Hes).
    + destruct (ls_paths_list top es Hp) as [Hd _].
      rewrite (Hd es' Hes) in Hr. injection Hr as <-. reflexivity.
  - exfalso. revert Hr. unfold ls_paths, subscript at 1. rewrite Hp.
    destruct es as [|e0 es]; [discriminate Hes|].
    cbn [truthy iterate]. rewrite Hes. discriminate.
Qed.

Lemma detail_entries_have_type_and_size_witness :
  ∃ es', Forall2 normalized
           [JDict [("name", JStr "a"); ("contentLength", JStr "11")];
            JDict [("name", JStr "d"); ("isDirectory", JStr "true")]] es'
         ∧ JList [JDict [("name", JStr "a"); ("type", JStr "file"); ("size", JInt 11)];
                  JDict [("name", JStr "d"); ("isDirectory", JStr "true");
                         ("type", JStr "directory"); ("size", JInt 0)]]
           = match es' with [e] => e | _ => JList es' end.
Proof.
  apply (detail_entries_have_type_and_size
           [("paths", JList [JDict [("name", JStr "a"); ("contentLength", JStr "11")];
                             JDict [("name", JStr "d"); ("isDirectory", JStr "true")]])]);
    reflexivity.
Defined.

(** C7, as stated, fails: a contentLength of "-5" gives the size -5. *)
Lemma negative_contentLength_gives_negative_size :
  (ls (Mock.listing [JDict [("name", JStr "a"); ("contentLength", JStr "-5")];
                     JDict [("name", JStr "b")]])
      "" 0 "dir" true "filesystem" false Mock.w0).1
  = Ok (JList [JDict [("name", JStr "a"); ("type", JStr "file"); ("size", JInt (-5))];
               JDict [("name", JStr "b"); ("type", JStr "file"); ("size", JInt 0)]]).
Proof. vm_compute. reflexivity. Qed.

(** C8 (amended): on an OK listing response whose 'paths' is a list,
    [ls] with detail returns the list of the normalized entries, except
    that for exactly one path it returns that entry itself, not a
    one-element list; without detail it returns the list of the names,
    also for one path. *)
Theorem ls_returns_list_or_single_entry
    (provider : list request → request → response) (root_marker : string)
    (w : world) (self : nat) (path resource : string) (recursive : bool)
    (top : list (string * json)) (es : list json) :
  let r := provider (log w)
             (ls_request root_marker (filesystems w self) path resource recursive) in
  status_code r = codes_ok →
  resp_json r = Some (JDict top) →
  Dict.get "paths" top = Some (JList es) →
  (∀ es', mapM normalize es = Ok es' →
     (ls provider root_marker self path true resource recursive w).1
     = Ok (match es' with [e] => e | _ => JList es' end))
  ∧ (∀ names, mapM (λ path_, subscript path_ "name") es = Ok names →
       (ls provider root_marker self path false resource recursive w).1
       = Ok (JList names)).
Proof.
  cbv zeta. intros Hs Hj Hp. destruct (ls_paths_list top es Hp) as [Hd Hn]. split.
  - intros es' H. rewrite (ls_ok _ _ _ _ _ _ _ _ top Hs Hj), (Hd es' H). reflexivity.
  - intros names H. rewrite (ls_ok _ _ _ _ _ _ _ _ top Hs Hj), (Hn names H). reflexivity.
Qed.

Lemma ls_returns_list_or_single_entry_witness :
  (∀ es', mapM normalize two_entries = Ok es' →
     (ls (Mock.listing two_entries) "" 0 "dir" true "filesystem" false Mock.w0).1
     = Ok (match es' with [e] => e | _ => JList es' end))
  ∧ (∀ names, mapM (λ path_, subscript path_ "name") two_entries = Ok names →
       (ls (Mock.listing two_entries) "" 0 "dir" false "filesystem" false Mock.w0).1
       = Ok (JList names)).
Proof.
  apply (ls_returns_list_or_single_entry (Mock.listing two_entries) "" Mock.w0 0
           "dir" "filesystem" false [("paths", JList two_entries)] two_entries);
    reflexivity.
Defined.

(** C8, as stated, fails: one path in detail mode gives the bare entry. *)
Lemma single_path_detail_is_bare_entry :
  (ls (Mock.listing [JDict [("name", JStr "dir/a.txt"); ("contentLength", JStr "11")]])
      "" 0 "dir" true "filesystem" false Mock.w0).1
  = Ok (JDict [("name", JStr "dir/a.txt"); ("type", JStr "file"); ("size", JInt 11)]).
Proof. vm_compute. reflexivity. Qed.

(** ** A missing path *)

Lemma ls_on_path_not_found provider root_marker w self path detail resource recursive :
  lists_path_not_found provider →
  ls provider root_marker self path detail resource recursive w
  = (Ok (JList []),
     logged w [ls_request root_marker (filesystems w self) path resource recursive]).
Proof.
  intros H.
  destruct (H (log w) (ls_request root_marker (filesystems w self) path resource recursive)
              eq_refl) as [Hs (j & Hj & top & err & code & -> & Hp & He & Hc & Hcode)].
  unfold ls. run_monad.
  destruct (status_code _ =? codes_ok); cbv beta iota; rewrite ?Hs; cbv beta iota;
    rewrite Hj; cbv beta iota.
  all: unfold ls_paths, subscript at 1; rewrite Hp; cbn [is_KeyError].
  all: unfold ls_except, Dict.has, subscript; rewrite He, Hc, Hcode; reflexivity.
Qed.

(** C6: a provider that answers the way the service reports a missing
    path, with status 404 and the PathNotFound document, makes [ls]
    raise HTTPError 404, with and without detail: the status check comes
    before the handler that turns PathNotFound into the empty list, which
    would have returned it. [info] on the same path raises HTTPError 404,
    as the claim says. *)
Theorem ls_raises_on_the_path_not_found_answer
    (provider : list request → request → response) (root_marker : string)
    (w : world) (self : nat) (path resource : string) (detail recursive : bool) :
  answers_path_not_found provider →
  (ls provider root_marker self path detail resource recursive w).1
  = Raise (HTTPError 404)
  ∧ (∀ past rq j, resp_json (provider past rq) = Some j →
                  ls_except j = Ok (JList []))
  ∧ (info provider root_marker self path w).1 = Raise (HTTPError 404).
Proof.
  intros Hp.
  assert (Hls : ∀ p d r rc w1,
            (ls provider root_marker self p d r rc w1).1 = Raise (HTTPError 404)).
  { intros p d r rc w1.
    destruct (Hp (log w1) (ls_request root_marker (filesystems w1 self) p r rc))
      as [Hs _].
    unfold ls. run_monad. rewrite Hs. change (404 =? codes_ok) with false.
    cbv beta iota. unfold raise_for_status. rewrite Hs. reflexivity. }
  split; [apply Hls|]. split.
  - intros past rq j Hj.
    destruct (Hp past rq) as [_ (j' & Hj' & top & err & code & -> & _ & He & Hc & Hcode)].
    rewrite Hj in Hj'. injection Hj' as ->.
    unfold ls_except, Dict.has, subscript. rewrite He, Hc, Hcode. reflexivity.
  - unfold info. run_monad.
    destruct (Hp (log w) (info_request (filesystems w self)
                            (_strip_protocol root_marker path))) as [Hs _].
    rewrite Hs. change (404 =? codes_ok) with false. cbv beta iota.
    match goal with |- context [ls ?a ?b ?c ?d ?e ?f ?g ?w1] =>
      pose proof (Hls d e f g w1) as H;
      destruct (ls a b c d e f g w1) as [[v|e0] w2] end; [discriminate H|].
    cbv beta iota. unfold raise_for_status. rewrite Hs. reflexivity.
Qed.

Lemma rejecting_answers_path_not_found : answers_path_not_found Mock.rejecting.
Proof.
  intros past rq. split; [reflexivity|].
  eexists. split; [reflexivity|]. unfold Mock.not_found_json.
  do 3 eexists. repeat split; reflexivity.
Qed.

(** At the failing input: every request about the path gets 404 and the
    document. *)
Lemma ls_raises_on_the_path_not_found_answer_witness :
  (ls Mock.rejecting "" 0 "missing" false "filesystem" false Mock.w0).1
  = Raise (HTTPError 404)
  ∧ (∀ past rq j, resp_json (Mock.rejecting past rq) = Some j →
                  ls_except j = Ok (JList []))
  ∧ (info Mock.rejecting "" 0 "missing" Mock.w0).1 = Raise (HTTPError 404).
Proof.
  apply (ls_raises_on_the_path_not_found_answer Mock.rejecting "" Mock.w0 0 "missing"
           "filesystem" false false rejecting_answers_path_not_found).
Defined.

Lemma missing_path_lists_path_not_found : lists_path_not_found Mock.missing_path.
Proof.
  intros past rq Hm. unfold Mock.missing_path. rewrite Hm. split; [reflexivity|].
  eexists. split; [reflexivity|]. unfold Mock.not_found_json.
  do 3 eexists. repeat split; reflexivity.
Qed.

(** The handler is reached only by an answer that passes the status
    check; then [ls] returns the empty list, and so does [info], which
    falls back to the listing. *)
Example path_not_found_past_the_status_check :
  (ls Mock.missing_path "" 0 "missing" false "filesystem" false Mock.w0).1 = Ok (JList [])
  ∧ (info Mock.missing_path "" 0 "missing" Mock.w0).1 = Ok (JList []).
Proof.
  split.
  - rewrite (ls_on_path_not_found _ _ _ _ _ _ _ _ missing_path_lists_path_not_found).
    reflexivity.
  - vm_compute. reflexivity.
Qed.

(** [_upload_chunk] rewinds the buffer and probes the size; the append
    it builds next carries Content-Length as an [int], so the library
    raises InvalidHeader and nothing further happens. *)
Lemma upload_chunk_unfold provider root_marker self w :
  _upload_chunk provider root_marker self w
  = match _get_size provider root_marker self (rewound self w) with
    | (Raise e, w2) => (Raise e, w2)
    | (Ok _, w2) => (Raise InvalidHeader, w2)
    end.
Proof.
  unfold _upload_chunk.
  cbv beta iota zeta delta [mbind M_bind mret M_ret get_file set_file].
  change {| filesystems := filesystems w;
            files := <[self := with_buffer (files w self)
                                 (BytesIO.seek0 (buffer (files w self)))]> (files w);
            fresh := fresh w; log := log w |} with (rewound self w).
  destruct (_get_size provider root_marker self (rewound self w)) as [[sz|e] w2];
    [|reflexivity].
  cbv beta iota zeta delta [get_fs].
  rewrite send_not_text by apply append_request_invalid. reflexivity.
Qed.

Section Cooperative.
Variable provider : list request → request → response.
Variable root_marker : string.
Hypothesis Hc : cooperative provider.

Lemma status_ok past rq : (status_code (provider past rq) =? codes_ok) = true.
Proof. rewrite (proj1 (Hc past rq)). reflexivity. Qed.

Lemma initiate_ok w self :
  _initiate_upload provider self w
  = (Ok tt, logged w [initiate_upload_request (filesystems w (fs (files w self)))
                        (files w self)]).
Proof. unfold _initiate_upload. run_monad. rewrite status_ok. reflexivity. Qed.

Lemma get_size_ok w self :
  ∃ n, _get_size provider root_marker self w
       = (Ok (JInt n),
          logged w [info_request (filesystems w (fs (files w self)))
                      (_strip_protocol root_marker (path (files w self)))]).
Proof.
  destruct (proj2 (Hc (log w) (info_request (filesystems w (fs (files w self)))
                      (_strip_protocol root_marker (path (files w self))))) eq_refl)
    as (cl & n & t & Hcl & Hn & Ht).
  exists n. unfold _get_size, info. run_monad. rewrite status_ok. cbv beta iota.
  rewrite Hcl. cbv beta iota. rewrite Hn. cbv beta iota. rewrite Ht. reflexivity.
Qed.

Lemma upload_chunk_raises w self :
  let f := files w self in
  let o := filesystems w (fs f) in
  _upload_chunk provider root_marker self w
  = (Raise InvalidHeader,
     logged (rewound self w)
       [info_request o (_strip_protocol root_marker (path f))]).
Proof.
  cbv zeta. rewrite upload_chunk_unfold.
  destruct (get_size_ok (rewound self w) self) as [n Hn]. rewrite Hn.
  cbn [rewound filesystems files]. rewrite fn_lookup_insert. reflexivity.
Qed.

Lemma append_empty_r (s : string) : s +:+ "" = s.
Proof.
  induction s as [|a s IH]; [reflexivity|].
  change (String a s +:+ "") with (String a (s +:+ "")). rewrite IH. reflexivity.
Qed.

Lemma drop_empty n : PyStr.drop n "" = "".
Proof. destruct n; reflexivity. Qed.

Lemma write_empty payload :
  BytesIO.write BytesIO.empty payload
  = {| getvalue := payload; tell := String.length payload |}.
Proof.
  unfold BytesIO.write, BytesIO.empty. cbn [getvalue tell BytesIO.take Nat.add].
  rewrite drop_empty. change ("" +:+ payload +:+ "") with (payload +:+ "").
  rewrite append_empty_r. reflexivity.
Qed.

Lemma flush_raises w self :
  let f := files w self in
  let o := filesystems w (fs f) in
  initiated f = false →
  ∃ w', flush provider root_marker self w = (Raise InvalidHeader, w')
        ∧ log w' = (log w ++ [initiate_upload_request o f;
                              info_request o (_strip_protocol root_marker (path f))])%list.
Proof.
  cbv zeta. intros Hi. unfold flush.
  cbv beta iota zeta delta [mbind M_bind mret M_ret get_file set_file].
  rewrite Hi. cbv beta iota. rewrite initiate_ok.
  match goal with |- context [_upload_chunk _ _ _ ?w1] =>
    rewrite (upload_chunk_raises w1 self) end.
  cbv beta iota. eexists. split; [reflexivity|].
  cbn [rewound filesystems files log logged].
  rewrite !fn_lookup_insert. cbn [fs path mode buffer with_buffer].
  rewrite <- !app_assoc. reflexivity.
Qed.
End Cooperative.

(** C3: with a provider that answers every request OK, opening a handle
    for writing, writing a nonempty payload shorter than a block (the 11
    bytes of the claim) and closing issues the initiate-upload PUT with
    [resource=file] and the size probe, and then raises InvalidHeader:
    [_upload_chunk] hands Content-Length over as an [int], which the
    library refuses before anything is sent. Neither the append PATCH nor
    the flush PATCH of the claim is issued. *)
Theorem write_cycle_raises_before_the_append
    (provider : list request → request → response) (root_marker : string)
    (w : world) (self : nat) (path_ payload : string) :
  cooperative provider →
  payload ≠ "" →
  Z.of_nat (String.length payload) < default_blocksize →
  ∃ put probe : request,
    (write_cycle provider root_marker self path_ payload w).1 = Raise InvalidHeader
    ∧ log (write_cycle provider root_marker self path_ payload w).2
      = (log w ++ [put; probe])%list
    ∧ method put = PUT ∧ params put = {[ "resource" := SStr "file" ]}
    ∧ method probe = HEAD.
Proof.
  intros Hc Hne Hlt.
  unfold write_cycle, _open, write.
  cbv beta iota zeta delta [mbind M_bind mret M_ret get_file set_file new_file].
  cbn [files]. rewrite fn_lookup_insert. cbn [closed mode buffer blocksize with_buffer].
  rewrite write_empty. cbn [tell].
  rewrite (proj2 (Z.leb_gt _ _) Hlt).
  unfold close.
  cbv beta iota zeta delta [mbind M_bind mret M_ret get_file set_file].
  cbn [files]. rewrite !fn_lookup_insert. cbn [closed mode buffer getvalue].
  destruct payload as [|a payload]; [congruence|].
  cbn [closed mode buffer getvalue with_buffer PyStr.is_empty filesystems files fresh log].
  match goal with |- context [flush _ _ ?f ?w1] =>
    destruct (flush_raises provider root_marker Hc w1 f) as (w2 & Hrun & Hlog)
  end.
  { cbn [files]. rewrite fn_lookup_insert. reflexivity. }
  rewrite Hrun. cbv beta iota.
  do 2 eexists. split; [reflexivity|]. cbn [snd log].
  split.
  { rewrite Hlog. cbn [files log filesystems]. rewrite !fn_lookup_insert.
    cbn [fs path buffer getvalue]. reflexivity. }
  repeat split.
Qed.

Lemma accepting_cooperative : cooperative Mock.accepting.
Proof.
  intros past rq. split; [reflexivity|]. intros _.
  exists "0", 0, "file". repeat split; reflexivity.
Qed.

(** At the failing input: the payload [hello world] *)
Lemma write_cycle_raises_before_the_append_witness :
  ∃ put probe : request,
    (write_cycle Mock.accepting "" 0 "dir/a.txt" "hello world" Mock.w0).1
    = Raise InvalidHeader
    ∧ log (write_cycle Mock.accepting "" 0 "dir/a.txt" "hello world" Mock.w0).2
      = [put; probe]
    ∧ method put = PUT ∧ params put = {[ "resource" := SStr "file" ]}
    ∧ method probe = HEAD.
Proof.
  apply (write_cycle_raises_before_the_append Mock.accepting "" Mock.w0 0 "dir/a.txt"
           "hello world" accepting_cooperative).
  - discriminate.
  - reflexivity.
Defined.

(** The trace of the cycle for [hello world] *)
Example write_cycle_hello_world :
  map (λ rq, (method rq, map_to_list (params rq), data rq))
      (log (write_cycle Mock.accepting "" 0 "dir/a.txt" "hello world" Mock.w0).2)
  = [(PUT, [("resource", SStr "file")],
      Stream {| getvalue := "hello world"; tell := 11 |});
     (HEAD, [("action", SStr "getStatus")], NoBody)].
Proof. vm_compute. reflexivity. Qed.

(** The append that [_upload_chunk] builds for it is refused for its
    Content-Length, the [int] 11; the sibling [_initiate_upload] passes
    the string '0'. *)
Example append_hello_world_is_refused :
  headers (append_request Mock.fs0 Mock.file0 "hello world") !! "Content-Length"
  = Some (SInt 11)
  ∧ check_header_validity (headers (append_request Mock.fs0 Mock.file0 "hello world"))
    = false
  ∧ headers (initiate_upload_request Mock.fs0 Mock.file0) !! "Content-Length"
    = Some (SStr "0").
Proof. vm_compute. repeat split. Qed.

(** ** The token after a reconnect *)

Section Sends.
Variable provider : list request → request → response.
Variable root_marker : string.
Variable self : nat.

Lemma sends_refl w : sends self w w.
Proof.
  split; [reflexivity|]. split; [reflexivity|].
  exists []. split; [symmetry; apply app_nil_r | constructor].
Qed.

Lemma sends_trans w1 w2 w3 : sends self w1 w2 → sends self w2 w3 → sends self w1 w3.
Proof.
  intros (Hf1 & Hb1 & n1 & Hl1 & Ha1) (Hf2 & Hb2 & n2 & Hl2 & Ha2).
  split; [congruence|]. split; [intros f; rewrite Hb2; apply Hb1|].
  exists (n1 ++ n2)%list. split.
  - rewrite Hl2, Hl1, app_assoc. reflexivity.
  - apply Forall_app. split; [exact Ha1|]. rewrite Hf1 in Ha2. exact Ha2.
Qed.

Lemma sends_bind {A B} (c : M A) (k : A → M B) w :
  sends self w (c w).2 →
  (∀ a, (c w).1 = Ok a → sends self (c w).2 (k a (c w).2).2) →
  sends self w ((c ≫= k) w).2.
Proof.
  intros Hc Hk. unfold mbind, M_bind. destruct (c w) as [[a|e] w1]; [|exact Hc].
  eapply sends_trans; [exact Hc | apply Hk; reflexivity].
Qed.

Lemma sends_send rq w :
  headers rq !! "Authorization" = Some (SStr (bearer (filesystems w self))) →
  sends self w (send provider rq w).2.
Proof.
  intros H. unfold send. destruct (check_header_validity (headers rq));
    [|apply sends_refl].
  split; [reflexivity|]. split; [reflexivity|].
  exists [rq]. split; [reflexivity | constructor; [exact H | constructor]].
Qed.

Lemma sends_lift {A} (r : result A) w : sends self w (lift r w).2.
Proof. apply sends_refl. Qed.

Lemma sends_check_status r w : sends self w (check_status r w).2.
Proof. rewrite check_status_world. apply sends_refl. Qed.

Lemma sends_try_except {A} (c h : M A) m w :
  sends self w (c w).2 → sends self (c w).2 (h (c w).2).2 →
  sends self w (try_except c m h w).2.
Proof.
  intros Hc Hh. unfold try_except. destruct (c w) as [[a|e] w1]; [exact Hc|].
  destruct (m e); [|exact Hc]. eapply sends_trans; [exact Hc | exact Hh].
Qed.

Lemma sends_fmap {A B} (g : A → B) (c : M A) w :
  sends self w (c w).2 → sends self w ((g <$> c) w).2.
Proof. unfold fmap, M_fmap. destruct (c w) as [[a|e] w1]; intros H; exact H. Qed.

Lemma ls_sends path detail resource recursive w :
  sends self w (ls provider root_marker self path detail resource recursive w).2.
Proof.
  unfold ls. apply sends_bind; [apply sends_refl|]. intros o [= <-]. cbn [snd get_fs].
  apply sends_bind.
  { apply sends_send. apply make_headers_Authorization. }
  intros r _. apply sends_bind; [apply sends_check_status|]. intros _ _.
  apply sends_bind; [apply sends_lift|]. intros j _.
  apply sends_try_except; apply sends_lift.
Qed.

Lemma info_sends path w :
  sends self w (info provider root_marker self path w).2.
Proof.
  unfold info. apply sends_bind; [apply sends_refl|]. intros o [= <-]. cbn [snd get_fs].
  apply sends_bind.
  { apply sends_send. apply make_headers_Authorization. }
  intros r _. apply sends_bind.
  { destruct (status_code r =? codes_ok); [apply sends_refl|].
    apply sends_try_except.
    - apply sends_fmap, ls_sends.
    - apply sends_bind; [apply sends_lift | intros; apply sends_refl]. }
  intros [detail|] _; [apply sends_refl|].
  repeat (apply sends_bind; [apply sends_lift | intros ? _]). apply sends_refl.
Qed.

Lemma bound_to_sends f w w' : sends self w w' → bound_to self f w → bound_to self f w'.
Proof. intros (_ & Hb & _) H. unfold bound_to. rewrite Hb. exact H. Qed.

Lemma fetch_range_sends f start end_ w :
  bound_to self f w → sends self w (_fetch_range provider f start end_ w).2.
Proof.
  intros Hb. unfold _fetch_range.
  apply sends_bind; [apply sends_refl|]. intros h [= <-]. cbn [snd get_file].
  apply sends_bind; [apply sends_refl|]. intros o [= <-]. cbn [snd get_fs].
  apply sends_bind; [|intros; apply sends_refl].
  apply sends_send. rewrite Hb. unfold fetch_range_request. cbn [headers].
  destruct start, end_; apply make_headers_Authorization.
Qed.

Lemma initiate_upload_sends f w :
  bound_to self f w → sends self w (_initiate_upload provider f w).2.
Proof.
  intros Hb. unfold _initiate_upload.
  apply sends_bind; [apply sends_refl|]. intros h [= <-]. cbn [snd get_file].
  apply sends_bind; [apply sends_refl|]. intros o [= <-]. cbn [snd get_fs].
  apply sends_bind; [|intros; apply sends_check_status].
  apply sends_send. rewrite Hb. apply make_headers_Authorization.
Qed.

Lemma upload_single_shot_sends f w :
  bound_to self f w → sends self w (upload_single_shot provider f w).2.
Proof.
  intros Hb. unfold upload_single_shot.
  apply sends_bind; [apply sends_refl|]. intros h [= <-]. cbn [snd get_file].
  apply sends_bind; [apply sends_refl|]. intros o [= <-]. cbn [snd get_fs].
  apply sends_bind; [|intros; apply sends_check_status].
  apply sends_send. rewrite Hb. unfold single_shot_request. cbn [headers].
  rewrite lookup_insert_ne by done. apply make_headers_Authorization.
Qed.

Lemma get_size_sends f w :
  bound_to self f w → sends self w (_get_size provider root_marker f w).2.
Proof.
  intros Hb. unfold _get_size.
  apply sends_bind; [apply sends_refl|]. intros h [= <-]. cbn [snd get_file].
  apply sends_bind; [|intros; apply sends_lift].
  rewrite Hb. apply info_sends.
Qed.

Lemma set_file_sends f h w :
  fs h = fs (files w f) → sends self w (set_file f h w).2.
Proof.
  intros Hfs. split; [reflexivity|]. split.
  - intros g. cbn [snd set_file files].
    destruct (decide (f = g)) as [->|Hne].
    + rewrite fn_lookup_insert. exact Hfs.
    + rewrite fn_lookup_insert_ne by exact Hne. reflexivity.
  - exists []. split; [symmetry; apply app_nil_r | constructor].
Qed.

Lemma upload_chunk_sends f w :
  bound_to self f w → sends self w (_upload_chunk provider root_marker f w).2.
Proof.
  intros Hb. rewrite upload_chunk_unfold.
  assert (H1 : sends self w (rewound f w)).
  { apply (set_file_sends f (with_buffer (files w f)
                               (BytesIO.seek0 (buffer (files w f)))) w).
    reflexivity. }
  pose proof (get_size_sends f (rewound f w) (bound_to_sends f _ _ H1 Hb)) as H2.
  destruct (_get_size provider root_marker f (rewound f w)) as [[sz|e] w2];
    cbn [snd] in H2 |- *; eapply sends_trans; eassumption.
Qed.
End Sends.

Lemma run_call_sends provider root_marker self c w :
  (∀ f, handle_of c = Some f → fs (files w f) = self) →
  sends self w (run_call provider root_marker self c w).
Proof.
  intros Hb. destruct c; cbn [run_call handle_of] in *.
  - apply ls_sends.
  - apply info_sends.
  - apply fetch_range_sends, Hb. reflexivity.
  - apply initiate_upload_sends, Hb. reflexivity.
  - apply get_size_sends, Hb. reflexivity.
  - apply upload_chunk_sends, Hb. reflexivity.
  - apply upload_single_shot_sends, Hb. reflexivity.
Qed.

Lemma later_sends provider root_marker self w w' :
  later provider root_marker self w w' → sends self w w'.
Proof.
  induction 1 as [w|w w' c _ IH Hb].
  - apply sends_refl.
  - eapply sends_trans; [exact IH | apply run_call_sends, Hb].
Qed.

Lemma connect_sets_token token_endpoint self w w1 :
  connect token_endpoint self w = (Ok tt, w1) →
  ∃ grant tok,
    token_endpoint (log w) (connect_request (filesystems w self)) = Ok grant
    ∧ grant_access_token grant = Some tok
    ∧ token (filesystems w1 self) = Some tok.
Proof.
  unfold connect.
  cbv beta iota zeta delta [mbind M_bind mret M_ret get_fs set_fs history record lift].
  cbn [log filesystems].
  destruct (token_endpoint (log w) (connect_request (filesystems w self)))
    as [grant|e]; [|discriminate].
  destruct (grant_token_type grant); [|discriminate].
  destruct (grant_expires_in grant); [|discriminate].
  destruct (grant_ext_expires_in grant); [|discriminate].
  destruct (grant_access_token grant) as [tok|] eqn:Htok; [|discriminate].
  intros [= <-]. exists grant, tok. repeat split; try assumption.
  cbn [filesystems]. rewrite fn_lookup_insert. reflexivity.
Qed.

(** C9: once [connect] has run again on a filesystem and stored the token
    the endpoint granted, every request that the filesystem builds
    afterwards ([ls], [info]) and every request built for a handle bound
    to it ([_fetch_range], [_initiate_upload], [_get_size],
    [_upload_chunk], [upload_single_shot]), also a handle opened before
    the reconnect, carries Authorization: Bearer with the new token. *)
Theorem requests_after_connect_carry_new_token
    (provider : list request → request → response)
    (token_endpoint : list request → request → result token_grant)
    (root_marker : string) (self : nat) (w w1 w2 : world) :
  connect token_endpoint self w = (Ok tt, w1) →
  later provider root_marker self w1 w2 →
  ∃ grant tok new,
    token_endpoint (log w) (connect_request (filesystems w self)) = Ok grant
    ∧ grant_access_token grant = Some tok
    ∧ log w2 = (log w1 ++ new)%list
    ∧ Forall (authorized tok) new.
Proof.
  intros Hc Hl.
  destruct (connect_sets_token _ _ _ _ Hc) as (grant & tok & Hg & Ht & Htok).
  destruct (later_sends _ _ _ _ _ Hl) as (_ & _ & new & Hlog & Hauth).
  exists grant, tok, new. repeat split; try assumption.
  unfold bearer in Hauth. rewrite Htok in Hauth. exact Hauth.
Qed.

Lemma requests_after_connect_carry_new_token_witness :
  ∃ grant tok new,
    Mock.grants "tok2" (log Mock.w0) (connect_request (filesystems Mock.w0 0)) = Ok grant
    ∧ grant_access_token grant = Some tok
    ∧ log (run_call Mock.accepting "" 0 (UploadChunk 0)
             (run_call Mock.accepting "" 0 (FetchRange 0 (Some 0) (Some 10)) reconnected))
      = (log reconnected ++ new)%list
    ∧ Forall (authorized tok) new.
Proof.
  apply (requests_after_connect_carry_new_token Mock.accepting (Mock.grants "tok2") ""
           0 Mock.w0 reconnected).
  - reflexivity.
  - apply later_call; [apply later_call; [apply later_now|]|]; intros f _; reflexivity.
Defined.

(** The POST of [connect] carries no Authorization; the GET of the handle
    that existed before carries the new token. *)
Example handle_opened_before_reconnect :
  map (λ rq, headers rq !! "Authorization")
      (log (run_call Mock.accepting "" 0 (FetchRange 0 (Some 0) (Some 10)) reconnected))
  = [None; Some (SStr "Bearer tok2")].
Proof. vm_compute. reflexivity. Qed.

(** * Further properties of the code *)

Lemma split_nonempty c s : PyStr.split c s ≠ [].
Proof.
  destruct s as [|a s]; cbn; [discriminate|].
  destruct (PyStr.split c s); [discriminate|].
  destruct (bool_decide (a = c)); discriminate.
Qed.

Lemma join_split c s : PyStr.join (String c EmptyString) (PyStr.split c s) = s.
Proof.
  induction s as [|a s IH]; [reflexivity|]. cbn [PyStr.split].
  destruct (PyStr.split c s) as [|p ps] eqn:Hs; [destruct (split_nonempty c s Hs)|].
  destruct (bool_decide_reflect (a = c)) as [->|Hne].
  - change (PyStr.join (String c "") ("" :: p :: ps))
      with (String c (PyStr.join (String c "") (p :: ps))).
    rewrite IH. reflexivity.
  - destruct ps as [|q qs].
    + cbn in IH |- *. rewrite IH. reflexivity.
    + change (PyStr.join (String c "") (String a p :: q :: qs))
        with (String a (PyStr.join (String c "") (p :: q :: qs))).
      rewrite IH. reflexivity.
Qed.

(** X1: [_parse_path] gives back its argument: the branch that returns the
    empty list is never taken, and joining the parts undoes the split. *)
Theorem parse_path_is_identity (path : string) : _parse_path path = SStr path.
Proof.
  unfold _parse_path. destruct (PyStr.split "/" path) as [|p ps] eqn:Hs.
  - destruct (split_nonempty _ _ Hs).
  - cbn [length Nat.eqb]. rewrite <- Hs, join_split. reflexivity.
Qed.

Lemma split_head_absent sep s : occurs sep s = false → PyStr.split_head sep s = s.
Proof.
  induction s as [|a s IH]; cbn [occurs PyStr.split_head]; intros H.
  - destruct (PyStr.startswith sep ""); reflexivity.
  - apply orb_false_iff in H as [H1 H2]. rewrite H1, (IH H2). reflexivity.
Qed.

Lemma drop_past_end s n : PyStr.drop (String.length s + n) s = "".
Proof.
  induction s as [|a s IH]; cbn [String.length Nat.add PyStr.drop].
  - destruct n; reflexivity.
  - exact IH.
Qed.

(** X2: a path that starts with [abfs] but has no [://] in it (a name such
    as abfs_data/file.csv) is taken for a protocol and dropped whole:
    [_strip_protocol] returns the root marker. *)
Theorem strip_protocol_drops_path_without_separator (root_marker path : string) :
  PyStr.startswith protocol (PyStr.rstrip "/" path) = true →
  occurs "://" (PyStr.rstrip "/" path) = false →
  _strip_protocol root_marker path = root_marker.
Proof.
  intros Hp Ho. unfold _strip_protocol. rewrite Hp, (split_head_absent _ _ Ho).
  rewrite drop_past_end. reflexivity.
Qed.

Lemma strip_protocol_drops_path_without_separator_witness :
  _strip_protocol "/" "abfs_data/file.csv" = "/".
Proof.
  apply (strip_protocol_drops_path_without_separator "/" "abfs_data/file.csv");
    reflexivity.
Defined.

(** X3: for a fully qualified path [abfs://rest], [_strip_protocol] returns
    [rest] without its trailing slashes, and the root marker when nothing
    is left. *)
Theorem strip_protocol_of_qualified_path (root_marker rest : string) :
  _strip_protocol root_marker ("abfs://" +:+ rest)
  = if PyStr.is_empty (PyStr.rstrip "/" rest) then root_marker
    else PyStr.rstrip "/" rest.
Proof.
  unfold _strip_protocol.
  change ("abfs://" +:+ rest)
    with (String "a" (String "b" (String "f" (String "s" (String ":"
           (String "/" (String "/" rest))))))).
  cbn [PyStr.rstrip]. destruct (PyStr.rstrip "/" rest) as [|a r] eqn:Hr.
  - reflexivity.
  - reflexivity.
Qed.

(** X4: without keyword arguments the headers are exactly: the API
    version, the bearer token, Content-Type and Media-Type when given and
    not empty, Range when given, and Content-Length whenever it is given,
    also when it is 0 or the empty string. *)
Theorem make_headers_entries (o : BlobFS) (cl : option scalar)
    (ct mt : option string) (r : option (Z * Z)) (enc : option string) :
  let h := _make_headers o cl ct mt r enc [] in
  h !! "x-ms-version" = Some (SStr "2019-02-02")
  ∧ h !! "Authorization" = Some (SStr (bearer o))
  ∧ h !! "Content-Type" = SStr <$> nonempty ct
  ∧ h !! "Media-Type" = SStr <$> nonempty mt
  ∧ h !! "Range" = (λ p, SStr (PyStr.of_int_pair p)) <$> r
  ∧ h !! "Content-Length" = cl
  ∧ ∀ k, k ∉ header_names → h !! k = None.
Proof.
  cbv zeta. unfold _make_headers. cbn [foldl].
  destruct (nonempty ct) as [t|], (nonempty mt) as [m|], r as [p|], cl as [l|];
    cbn [fmap option_fmap option_map];
    (repeat split;
     [ .. | intros k Hk; unfold header_names in Hk;
            repeat (rewrite lookup_insert_ne by (intros <-; apply Hk; set_solver));
            apply lookup_singleton_ne; intros <-; apply Hk; set_solver ]);
    repeat (rewrite lookup_insert_ne by done);
    first [ apply lookup_insert_eq | apply lookup_singleton_eq
          | apply lookup_singleton_ne; done ].
Qed.

Lemma foldl_insert_lookup (k : string) (kwargs : list (string * scalar)) :
  ∀ h : gmap string scalar,
    foldl (λ h kv, <[kv.1 := kv.2]> h) h kwargs !! k
    = match last_binding k kwargs with Some v => Some v | None => h !! k end.
Proof.
  induction kwargs as [|[k' v] kwargs IH]; intros h; cbn [foldl last_binding fst snd].
  - reflexivity.
  - rewrite IH. destruct (last_binding k kwargs); [reflexivity|].
    destruct (bool_decide_reflect (k' = k)) as [->|Hne].
    + apply lookup_insert_eq.
    + apply lookup_insert_ne, Hne.
Qed.

Lemma get_Some_elem_of (k : string) (kwargs : list (string * scalar)) (x : scalar) :
  Dict.get k kwargs = Some x → k ∈ kwargs.*1.
Proof.
  induction kwargs as [|[k1 v1] kwargs IH]; cbn [Dict.get fmap list_fmap fst];
    [discriminate|].
  destruct (bool_decide_reflect (k1 = k)) as [->|Hne]; intros Hx.
  - apply elem_of_cons. left. reflexivity.
  - apply elem_of_cons. right. apply IH, Hx.
Qed.

Lemma last_binding_get (k : string) (kwargs : list (string * scalar)) :
  NoDup kwargs.*1 → last_binding k kwargs = Dict.get k kwargs.
Proof.
  induction kwargs as [|[k' v] kwargs IH]; cbn [last_binding Dict.get fmap list_fmap fst];
    [reflexivity|].
  intros Hnd. apply NoDup_cons in Hnd as [Hk' Hnd]. rewrite (IH Hnd).
  destruct (bool_decide_reflect (k' = k)) as [->|Hne].
  - destruct (Dict.get k kwargs) as [x|] eqn:Hx; [|reflexivity].
    exfalso. apply Hk'. exact (get_Some_elem_of _ _ _ Hx).
  - destruct (Dict.get k kwargs); reflexivity.
Qed.

(** X5: keyword arguments of [_make_headers] (each name bound once, none
    of them one of the method's own parameters) set the headers of their
    names and replace what the method built under such a name,
    Authorization and x-ms-version included; every other header is as
    without keyword arguments. *)
Theorem make_headers_kwargs_override (o : BlobFS) (cl : option scalar)
    (ct mt : option string) (r : option (Z * Z)) (enc : option string)
    (kwargs : list (string * scalar)) (k : string) :
  keyword_arguments kwargs →
  _make_headers o cl ct mt r enc kwargs !! k
  = match Dict.get k kwargs with
    | Some v => Some v
    | None => _make_headers o cl ct mt r enc [] !! k
    end.
Proof.
  intros [Hnd _]. rewrite <- (last_binding_get k kwargs Hnd).
  unfold _make_headers. apply foldl_insert_lookup.
Qed.

Lemma make_headers_kwargs_override_witness :
  _make_headers Mock.fs0 None None None None None
    [("Authorization", SStr "Basic abc"); ("x-ms-lease-id", SStr "7")]
  !! "Authorization" = Some (SStr "Basic abc").
Proof.
  apply (make_headers_kwargs_override Mock.fs0 None None None None None
           [("Authorization", SStr "Basic abc"); ("x-ms-lease-id", SStr "7")]
           "Authorization").
  split; apply (bool_decide_unpack _); vm_compute; exact I.
Defined.

(** X6: the two PUT methods raise exactly when the answer is a 4xx or 5xx:
    then HTTPError with that status; any other status, OK or not (201,
    301), lets them return normally. *)
Theorem put_methods_raise_exactly_on_4xx_5xx
    (provider : list request → request → response) (w : world) (self : nat) :
  let f := files w self in
  let o := filesystems w (fs f) in
  let s1 := status_code (provider (log w) (initiate_upload_request o f)) in
  let s2 := status_code (provider (log w) (single_shot_request o f)) in
  (_initiate_upload provider self w).1
  = (if (400 <=? s1) && (s1 <? 600) then Raise (HTTPError s1) else Ok tt)
  ∧ (upload_single_shot provider self w).1
    = (if (400 <=? s2) && (s2 <? 600) then Raise (HTTPError s2) else Ok tt).
Proof.
  cbv zeta. split.
  - unfold _initiate_upload. run_monad. unfold raise_for_status.
    destruct (status_code _ =? codes_ok) eqn:E.
    + apply Z.eqb_eq in E. rewrite E. reflexivity.
    + cbv beta iota. destruct (_ && _); reflexivity.
  - unfold upload_single_shot. run_monad. unfold raise_for_status.
    destruct (status_code _ =? codes_ok) eqn:E.
    + apply Z.eqb_eq in E. rewrite E. reflexivity.
    + cbv beta iota. destruct (_ && _); reflexivity.
Qed.

(** X7: with no bound [_fetch_range] sends no Range header; with only a
    start it sends the pair [(start, -1)], with only an end the pair
    [(0, end - 1)]: a missing bound counts as 0. *)
Theorem fetch_range_missing_bounds
    (provider : list request → request → response) (w : world) (self : nat)
    (start end_ : Z) :
  let f := files w self in
  let o := filesystems w (fs f) in
  log (_fetch_range provider self None None w).2
  = (log w ++ [fetch_range_request o f None None])%list
  ∧ headers (fetch_range_request o f None None) !! "Range" = None
  ∧ log (_fetch_range provider self (Some start) None w).2
    = (log w ++ [fetch_range_request o f (Some start) None])%list
  ∧ headers (fetch_range_request o f (Some start) None) !! "Range"
    = Some (SStr ("(" +:+ PyStr.of_int start +:+ ", -1)"))
  ∧ log (_fetch_range provider self None (Some end_) w).2
    = (log w ++ [fetch_range_request o f None (Some end_)])%list
  ∧ headers (fetch_range_request o f None (Some end_)) !! "Range"
    = Some (SStr ("(0, " +:+ PyStr.of_int (end_ - 1) +:+ ")")).
Proof.
  cbv zeta. repeat split.
Qed.

Lemma ls_world provider root_marker w self path detail resource recursive :
  (ls provider root_marker self path detail resource recursive w).2
  = logged w [ls_request root_marker (filesystems w self) path resource recursive].
Proof.
  unfold ls. run_monad.
  destruct (status_code _ =? codes_ok); cbv beta iota.
  - destruct (resp_json _); cbv beta iota; [|reflexivity].
    destruct (ls_paths _ _) as [v|e]; [reflexivity|]. destruct (is_KeyError e); reflexivity.
  - destruct (raise_for_status _); cbv beta iota; [|reflexivity].
    destruct (resp_json _); cbv beta iota; [|reflexivity].
    destruct (ls_paths _ _) as [v|e]; [reflexivity|]. destruct (is_KeyError e); reflexivity.
Qed.

(** X8: whatever the provider answers, [ls] issues exactly one request and
    changes nothing else: a GET on the URL of the filesystem root, with
    the stripped path as [directory] and [resource] and [recursive] as
    given. *)
Theorem ls_issues_one_request
    (provider : list request → request → response) (root_marker : string)
    (w : world) (self : nat) (path resource : string) (detail recursive : bool) :
  let rq := ls_request root_marker (filesystems w self) path resource recursive in
  (ls provider root_marker self path detail resource recursive w).2 = logged w [rq]
  ∧ method rq = GET
  ∧ url rq = _make_url (filesystems w self) None
  ∧ params rq !! "directory" = Some (SStr (_strip_protocol root_marker path))
  ∧ params rq !! "resource" = Some (SStr resource)
  ∧ params rq !! "recursive" = Some (SBool recursive)
  ∧ data rq = NoBody.
Proof.
  cbv zeta. split; [apply ls_world|]. unfold ls_request. cbn [method url params data].
  repeat split.
  rewrite lookup_insert_eq. unfold _parse_path.
  destruct (PyStr.split "/" _) as [|p ps] eqn:Hs; [destruct (split_nonempty _ _ Hs)|].
  cbn [length Nat.eqb]. rewrite <- Hs, join_split. reflexivity.
Qed.

(** X9: on a 4xx or 5xx answer [ls] raises HTTPError with that status,
    whatever the body says, a PathNotFound document included. *)
Theorem ls_raises_on_error_status
    (provider : list request → request → response) (root_marker : string)
    (w : world) (self : nat) (path resource : string) (detail recursive : bool) :
  let rq := ls_request root_marker (filesystems w self) path resource recursive in
  let s := status_code (provider (log w) rq) in
  400 ≤ s < 600 →
  ls provider root_marker self path detail resource recursive w
  = (Raise (HTTPError s), logged w [rq]).
Proof.
  cbv zeta. intros Hs. unfold ls. run_monad. unfold raise_for_status.
  rewrite (proj2 (Z.eqb_neq _ _)) by (unfold codes_ok; lia).
  rewrite (proj2 (Z.leb_le _ _)) by lia. rewrite (proj2 (Z.ltb_lt _ _)) by lia.
  reflexivity.
Qed.

Lemma ls_raises_on_error_status_witness :
  ls Mock.rejecting "" 0 "missing" false "filesystem" false Mock.w0
  = (Raise (HTTPError 404),
     logged Mock.w0 [ls_request "" Mock.fs0 "missing" "filesystem" false]).
Proof.
  apply (ls_raises_on_error_status Mock.rejecting "" Mock.w0 0 "missing" "filesystem"
           false false).
  cbn. lia.
Defined.

(** X10: when the OK answer has a 'paths' entry that is empty or otherwise
    false (an empty list, null, 0, the empty string), [ls] returns the
    empty list, with and without detail. *)
Theorem ls_of_no_paths_is_empty
    (provider : list request → request → response) (root_marker : string)
    (w : world) (self : nat) (path resource : string) (detail recursive : bool)
    (top : list (string * json)) (v : json) :
  let r := provider (log w)
             (ls_request root_marker (filesystems w self) path resource recursive) in
  status_code r = codes_ok →
  resp_json r = Some (JDict top) →
  Dict.get "paths" top = Some v →
  truthy v = false →
  (ls provider root_marker self path detail resource recursive w).1 = Ok (JList []).
Proof.
  cbv zeta. intros Hs Hj Hp Hv.
  rewrite (ls_ok _ _ _ _ _ _ _ _ top Hs Hj).
  unfold ls_paths, subscript. rewrite Hp, Hv. reflexivity.
Qed.

Lemma ls_of_no_paths_is_empty_witness :
  (ls (Mock.listing []) "" 0 "dir" true "filesystem" false Mock.w0).1 = Ok (JList []).
Proof.
  apply (ls_of_no_paths_is_empty (Mock.listing []) "" Mock.w0 0 "dir" "filesystem"
           true false [("paths", JList [])] (JList [])); reflexivity.
Defined.

(** X11: when the OK answer has no 'paths' and its 'error' carries a code
    other than 'PathNotFound', [ls] neither raises nor returns a list: it
    returns None. *)
Theorem ls_of_other_error_code_is_None
    (provider : list request → request → response) (root_marker : string)
    (w : world) (self : nat) (path resource : string) (detail recursive : bool)
    (top err : list (string * json)) (code : json) :
  let r := provider (log w)
             (ls_request root_marker (filesystems w self) path resource recursive) in
  status_code r = codes_ok →
  resp_json r = Some (JDict top) →
  Dict.get "paths" top = None →
  Dict.get "error" top = Some (JDict err) →
  Dict.get "code" err = Some code →
  eq_str code "PathNotFound" = false →
  (ls provider root_marker self path detail resource recursive w).1 = Ok JNull.
Proof.
  cbv zeta. intros Hs Hj Hp He Hc Hcode.
  rewrite (ls_ok _ _ _ _ _ _ _ _ top Hs Hj).
  unfold ls_paths, subscript at 1. rewrite Hp. cbn [is_KeyError].
  unfold ls_except, Dict.has, subscript. rewrite He, Hc, Hcode. reflexivity.
Qed.

Lemma ls_of_other_error_code_is_None_witness :
  (ls (answering (JDict filesystem_not_found)) "" 0 "dir" false "filesystem" false
      Mock.w0).1 = Ok JNull.
Proof.
  apply (ls_of_other_error_code_is_None (answering (JDict filesystem_not_found)) ""
           Mock.w0 0 "dir" "filesystem" false false filesystem_not_found
           [("code", JStr "FilesystemNotFound")] (JStr "FilesystemNotFound"));
    reflexivity.
Defined.

(** X12: when the OK answer has neither 'paths' nor 'error', [ls] raises
    KeyError. *)
Theorem ls_without_paths_and_error_raises_KeyError
    (provider : list request → request → response) (root_marker : string)
    (w : world) (self : nat) (path resource : string) (detail recursive : bool)
    (top : list (string * json)) :
  let r := provider (log w)
             (ls_request root_marker (filesystems w self) path resource recursive) in
  status_code r = codes_ok →
  resp_json r = Some (JDict top) →
  Dict.get "paths" top = None →
  Dict.get "error" top = None →
  (ls provider root_marker self path detail resource recursive w).1
  = Raise KeyErrorResponse.
Proof.
  cbv zeta. intros Hs Hj Hp He.
  rewrite (ls_ok _ _ _ _ _ _ _ _ top Hs Hj).
  unfold ls_paths, subscript. rewrite Hp. cbn [is_KeyError].
  unfold ls_except, Dict.has. rewrite He. reflexivity.
Qed.

Lemma ls_without_paths_and_error_raises_KeyError_witness :
  (ls (answering (JDict [("message", JStr "hello")])) "" 0 "dir" false "filesystem"
      false Mock.w0).1 = Raise KeyErrorResponse.
Proof.
  apply (ls_without_paths_and_error_raises_KeyError
           (answering (JDict [("message", JStr "hello")])) "" Mock.w0 0 "dir"
           "filesystem" false false [("message", JStr "hello")]); reflexivity.
Defined.

(** X13: the detail loop of [ls] changes an entry only under the keys
    'type', 'size' and 'contentLength': every other key, 'name' among
    them, keeps its value, and 'contentLength' is gone from the result. *)
Theorem normalize_keeps_other_keys (d : list (string * json)) (e : json) :
  normalize (JDict d) = Ok e →
  ∃ d', e = JDict d'
        ∧ Dict.get "contentLength" d' = None
        ∧ ∀ k, k ≠ "type" → k ≠ "size" → k ≠ "contentLength" →
               Dict.get k d' = Dict.get k d.
Proof.
  unfold normalize.
  assert (Hdir : (Dict.has "isDirectory" d
                  && match Dict.get "isDirectory" d with
                     | Some v => eq_str v "true" | None => false end)
                 = is_directory d).
  { unfold is_directory, Dict.has. destruct (Dict.get "isDirectory" d); reflexivity. }
  rewrite Hdir.
  set (d1 := if is_directory d then Dict.set "type" (JStr "directory") d
             else Dict.set "type" (JStr "file") d).
  assert (H1 : ∀ k, k ≠ "type" → Dict.get k d1 = Dict.get k d).
  { intros k Hk. subst d1.
    destruct (is_directory d); apply DictFacts.get_set_ne; congruence. }
  destruct (Dict.get "contentLength" d1) as [v|] eqn:Hv.
  - destruct (py_int v) as [n|]; [|discriminate]. intros [= <-].
    eexists. split; [reflexivity|]. split.
    + rewrite DictFacts.get_set_ne by discriminate. apply DictFacts.get_remove_eq.
    + intros k Ht Hs Hc. rewrite DictFacts.get_set_ne by congruence.
      rewrite DictFacts.get_remove_ne by congruence. apply H1, Ht.
  - intros [= <-]. eexists. split; [reflexivity|]. split.
    + rewrite DictFacts.get_set_ne by discriminate. exact Hv.
    + intros k Ht Hs Hc. rewrite DictFacts.get_set_ne by congruence. apply H1, Ht.
Qed.

Lemma normalize_keeps_other_keys_witness :
  ∃ d', JDict [("name", JStr "a"); ("etag", JStr "0x8D"); ("type", JStr "file");
               ("size", JInt 11)] = JDict d'
        ∧ Dict.get "contentLength" d' = None
        ∧ ∀ k, k ≠ "type" → k ≠ "size" → k ≠ "contentLength" →
               Dict.get k d'
               = Dict.get k [("name", JStr "a"); ("contentLength", JStr "11");
                             ("etag", JStr "0x8D")].
Proof.
  apply (normalize_keeps_other_keys
           [("name", JStr "a"); ("contentLength", JStr "11"); ("etag", JStr "0x8D")]).
  reflexivity.
Defined.

Lemma normalize_not_KeyError x e : normalize x = Raise e → is_KeyError e = false.
Proof.
  destruct x as [| | | | |d]; try (intros [= <-]; reflexivity).
  unfold normalize. destruct (Dict.get "contentLength" _) as [v|]; [|discriminate].
  destruct v as [|b|z|s|l|d']; cbn [py_int]; try discriminate;
    try (intros [= <-]; reflexivity).
  destruct (PyStr.to_int s); [discriminate|]. intros [= <-]. reflexivity.
Qed.

Lemma mapM_not_KeyError {A B} (f : A → result B) :
  (∀ x e, f x = Raise e → is_KeyError e = false) →
  ∀ l e, mapM f l = Raise e → is_KeyError e = false.
Proof.
  intros Hf. induction l as [|x l IH]; cbn; intros e H; [discriminate|].
  destruct (f x) as [y|e'] eqn:Hx.
  - destruct (mapM f l) as [ys|e'']; [discriminate|]. injection H as <-.
    apply IH. reflexivity.
  - injection H as <-. exact (Hf _ _ Hx).
Qed.

(** X14: an entry that the detail loop cannot convert makes [ls] raise what
    the conversion raised (ValueError for a contentLength that is no
    number, AttributeError for an entry that is no object): the
    [except KeyError] clause does not catch it and no list is returned. *)
Theorem ls_detail_propagates_conversion_error
    (provider : list request → request → response) (root_marker : string)
    (w : world) (self : nat) (path resource : string) (recursive : bool)
    (top : list (string * json)) (es : list json) (e : exn) :
  let r := provider (log w)
             (ls_request root_marker (filesystems w self) path resource recursive) in
  status_code r = codes_ok →
  resp_json r = Some (JDict top) →
  Dict.get "paths" top = Some (JList es) →
  mapM normalize es = Raise e →
  (ls provider root_marker self path true resource recursive w).1 = Raise e.
Proof.
  cbv zeta. intros Hs Hj Hp He.
  rewrite (ls_ok _ _ _ _ _ _ _ _ top Hs Hj).
  unfold ls_paths, subscript. rewrite Hp.
  destruct es as [|x es]; [discriminate He|]. cbn [truthy iterate]. rewrite He.
  rewrite (mapM_not_KeyError normalize normalize_not_KeyError _ _ He). reflexivity.
Qed.

Lemma ls_detail_propagates_conversion_error_witness :
  (ls (Mock.listing [JDict [("name", JStr "a"); ("contentLength", JStr "1.5e3")]])
      "" 0 "dir" true "filesystem" false Mock.w0).1 = Raise ValueError.
Proof.
  apply (ls_detail_propagates_conversion_error
           (Mock.listing [JDict [("name", JStr "a"); ("contentLength", JStr "1.5e3")]])
           "" Mock.w0 0 "dir" "filesystem" false
           [("paths", JList [JDict [("name", JStr "a"); ("contentLength", JStr "1.5e3")]])]
           [JDict [("name", JStr "a"); ("contentLength", JStr "1.5e3")]]);
    reflexivity.
Defined.

(** ** [info] *)

(** X15: when the HEAD probe is answered OK, [info] issues no other request
    and returns the stripped path as 'name', the integer of the
    Content-Length header as 'size' and the x-ms-resource-type header as
    'type'. *)
Theorem info_of_ok_probe
    (provider : list request → request → response) (root_marker : string)
    (w : world) (self : nat) (path cl t : string) (n : Z) :
  let p := _strip_protocol root_marker path in
  let rq := info_request (filesystems w self) p in
  let r := provider (log w) rq in
  status_code r = codes_ok →
  header_get "Content-Length" (resp_headers r) = Ok cl →
  PyStr.to_int cl = Some n →
  header_get "x-ms-resource-type" (resp_headers r) = Ok t →
  info provider root_marker self path w
  = (Ok (JDict [("name", JStr p); ("size", JInt n); ("type", JStr t)]),
     logged w [rq]).
Proof.
  cbv zeta. intros Hs Hcl Hn Ht. unfold info. run_monad.
  rewrite Hs, Z.eqb_refl. cbv beta iota. rewrite Hcl. cbv beta iota.
  unfold py_int. rewrite Hn. cbv beta iota. rewrite Ht. reflexivity.
Qed.

Lemma info_of_ok_probe_witness :
  info (with_headers [("content-length", "42"); ("X-Ms-Resource-Type", "file")]) ""
       0 "abfs://dir/a.txt/" Mock.w0
  = (Ok (JDict [("name", JStr "dir/a.txt"); ("size", JInt 42); ("type", JStr "file")]),
     logged Mock.w0 [info_request Mock.fs0 "dir/a.txt"]).
Proof.
  apply (info_of_ok_probe
           (with_headers [("content-length", "42"); ("X-Ms-Resource-Type", "file")]) ""
           Mock.w0 0 "abfs://dir/a.txt/" "42" "file" 42); reflexivity.
Defined.

Lemma header_get_raises k h e :
  header_get k h = Raise e → e = KeyError (PyStr.lower k).
Proof.
  induction h as [|[k' v] h IH]; cbn; [intros [= <-]; reflexivity|].
  destruct (bool_decide _); [discriminate | exact IH].
Qed.

(** X16: an OK answer to the probe that lacks the Content-Length header
    makes [info] raise KeyError for that header, named in lower case as
    the header dictionary of the library reports it; the listing fallback
    is not tried. *)
Theorem info_without_content_length_raises_KeyError
    (provider : list request → request → response) (root_marker : string)
    (w : world) (self : nat) (path : string) (e : exn) :
  let p := _strip_protocol root_marker path in
  let rq := info_request (filesystems w self) p in
  let r := provider (log w) rq in
  status_code r = codes_ok →
  header_get "Content-Length" (resp_headers r) = Raise e →
  info provider root_marker self path w
  = (Raise (KeyError "content-length"), logged w [rq]).
Proof.
  cbv zeta. intros Hs Hcl. rewrite (header_get_raises _ _ _ Hcl) in Hcl.
  unfold info. run_monad.
  rewrite Hs, Z.eqb_refl. cbv beta iota. rewrite Hcl. reflexivity.
Qed.

Lemma info_without_content_length_raises_KeyError_witness :
  info (with_headers [("x-ms-resource-type", "directory")]) "" 0 "dir" Mock.w0
  = (Raise (KeyError "content-length"), logged Mock.w0 [info_request Mock.fs0 "dir"]).
Proof.
  apply (info_without_content_length_raises_KeyError
           (with_headers [("x-ms-resource-type", "directory")]) "" Mock.w0 0 "dir"
           (KeyError "content-length")); reflexivity.
Defined.

Section Quiet.
Variable provider : list request → request → response.
Variable root_marker : string.

Lemma quiet_refl w : quiet w w.
Proof.
  repeat split. exists []. split; [symmetry; apply app_nil_r | constructor].
Qed.

Lemma quiet_trans w1 w2 w3 : quiet w1 w2 → quiet w2 w3 → quiet w1 w3.
Proof.
  intros (Hf1 & Hh1 & Hn1 & n1 & Hl1 & Ha1) (Hf2 & Hh2 & Hn2 & n2 & Hl2 & Ha2).
  repeat split; try congruence.
  exists (n1 ++ n2)%list. split.
  - rewrite Hl2, Hl1, app_assoc. reflexivity.
  - apply Forall_app. split; assumption.
Qed.

Lemma quiet_bind {A B} (c : M A) (k : A → M B) w :
  quiet w (c w).2 →
  (∀ a, (c w).1 = Ok a → quiet (c w).2 (k a (c w).2).2) →
  quiet w ((c ≫= k) w).2.
Proof.
  intros Hc Hk. unfold mbind, M_bind. destruct (c w) as [[a|e] w1]; [|exact Hc].
  eapply quiet_trans; [exact Hc | apply Hk; reflexivity].
Qed.

Lemma quiet_logged rq w :
  method rq = GET ∨ method rq = HEAD → quiet w (logged w [rq]).
Proof.
  intros H. repeat split. exists [rq]. split; [reflexivity|].
  constructor; [exact H | constructor].
Qed.

Lemma send_quiet rq w :
  method rq = GET ∨ method rq = HEAD → quiet w (send provider rq w).2.
Proof.
  intros H. unfold send. destruct (check_header_validity (headers rq)).
  - apply (quiet_logged rq w H).
  - apply quiet_refl.
Qed.

Lemma ls_quiet self path detail resource recursive w :
  quiet w (ls provider root_marker self path detail resource recursive w).2.
Proof. rewrite ls_world. apply quiet_logged. left. reflexivity. Qed.

Lemma info_quiet self path w : quiet w (info provider root_marker self path w).2.
Proof.
  unfold info. apply quiet_bind; [apply quiet_refl|]. intros o [= <-]. cbn [snd get_fs].
  apply quiet_bind.
  { apply send_quiet. right. reflexivity. }
  intros r _. apply quiet_bind.
  { destruct (status_code r =? codes_ok); [apply quiet_refl|].
    unfold try_except, fmap, M_fmap.
    match goal with |- context [ls ?a ?b ?c ?d ?e ?f ?g ?w1] =>
      pose proof (ls_quiet c d e f g w1) as Hq;
      destruct (ls a b c d e f g w1) as [[v|e0] w2] end; [exact Hq|].
    cbn [snd] in Hq |- *. eapply quiet_trans; [exact Hq|].
    apply quiet_bind; [apply quiet_refl | intros; apply quiet_refl]. }
  intros [detail|] _; [apply quiet_refl|].
  repeat (apply quiet_bind; [apply quiet_refl | intros ? _]). apply quiet_refl.
Qed.

Lemma get_size_quiet self w : quiet w (_get_size provider root_marker self w).2.
Proof.
  unfold _get_size. apply quiet_bind; [apply quiet_refl|]. intros h [= <-].
  cbn [snd get_file]. apply quiet_bind; [apply info_quiet | intros; apply quiet_refl].
Qed.

Lemma fetch_range_quiet self start end_ w :
  quiet w (_fetch_range provider self start end_ w).2.
Proof.
  unfold _fetch_range. run_monad. apply (quiet_logged _ w). left. reflexivity.
Qed.

End Quiet.

(** X17: listing, probing, reading a range and asking for the size only ever
    issue GET and HEAD requests, never a PUT or PATCH, and leave the
    filesystem objects (token included) and every handle as they were,
    whether they return or raise. *)
Theorem read_operations_are_quiet
    (provider : list request → request → response) (root_marker : string)
    (w : world) (self file : nat) (path resource : string) (detail recursive : bool)
    (start end_ : option Z) :
  quiet w (ls provider root_marker self path detail resource recursive w).2
  ∧ quiet w (info provider root_marker self path w).2
  ∧ quiet w (_fetch_range provider file start end_ w).2
  ∧ quiet w (_get_size provider root_marker file w).2.
Proof.
  split; [apply ls_quiet|]. split; [apply info_quiet|].
  split; [apply fetch_range_quiet | apply get_size_quiet].
Qed.

(** X18: when the probe is refused with a 4xx or 5xx status and the listing
    fallback raises as well, [info] raises HTTPError with the status of
    the probe, not what the listing raised. *)
Theorem info_raises_the_probe_failure
    (provider : list request → request → response) (root_marker : string)
    (w : world) (self : nat) (path : string) (e : exn) :
  let p := _strip_protocol root_marker path in
  let rq := info_request (filesystems w self) p in
  let s := status_code (provider (log w) rq) in
  400 ≤ s < 600 →
  (ls provider root_marker self p false "filesystem" false (logged w [rq])).1 = Raise e →
  (info provider root_marker self path w).1 = Raise (HTTPError s).
Proof.
  cbv zeta. intros Hs Hls. unfold info. run_monad. unfold logged in Hls.
  rewrite (proj2 (Z.eqb_neq _ _)) by (unfold codes_ok; lia).
  destruct (ls _ _ _ _ _ _ _ _) as [[v|e0] w2]; [discriminate Hls|].
  cbv beta iota. unfold raise_for_status.
  rewrite (proj2 (Z.leb_le _ _)) by lia. rewrite (proj2 (Z.ltb_lt _ _)) by lia.
  reflexivity.
Qed.

Lemma info_raises_the_probe_failure_witness :
  (info refusing "" 0 "dir/a.txt" Mock.w0).1 = Raise (HTTPError 403).
Proof.
  apply (info_raises_the_probe_failure refusing "" Mock.w0 0 "dir/a.txt" (HTTPError 500)).
  - cbn. lia.
  - reflexivity.
Defined.

Lemma ls_names_shape provider root_marker self path resource recursive w v :
  (ls provider root_marker self path false resource recursive w).1 = Ok v →
  v = JNull ∨ ∃ l, v = JList l.
Proof.
  unfold ls. run_monad.
  assert (H : ∀ j, match ls_paths j false with
                   | Ok v' => Ok v'
                   | Raise e => if is_KeyError e then ls_except j else Raise e
                   end = Ok v → v = JNull ∨ ∃ l, v = JList l).
  { intros j. unfold ls_paths.
    destruct (subscript j "paths") as [pl|e].
    - destruct (truthy pl).
      + destruct (iterate pl) as [items|e]; cbn [is_KeyError].
        * destruct (mapM _ items) as [names|e].
          -- intros [= <-]. right. eexists. reflexivity.
          -- destruct (is_KeyError e); [|discriminate].
             unfold ls_except. destruct j; try discriminate.
             destruct (Dict.has "error" d); [|discriminate].
             destruct (subscript _ "error") as [err|]; [|discriminate].
             destruct (subscript err "code") as [c|]; [|discriminate].
             destruct (eq_str c "PathNotFound"); intros [= <-]; [right; eexists|left];
               reflexivity.
        * destruct (is_KeyError e); [|discriminate].
          unfold ls_except. destruct j; try discriminate.
          destruct (Dict.has "error" d); [|discriminate].
          destruct (subscript _ "error") as [err|]; [|discriminate].
          destruct (subscript err "code") as [c|]; [|discriminate].
          destruct (eq_str c "PathNotFound"); intros [= <-]; [right; eexists|left];
            reflexivity.
      + intros [= <-]. right. eexists. reflexivity.
    - destruct (is_KeyError e); [|discriminate].
      unfold ls_except. destruct j; try discriminate.
      destruct (Dict.has "error" d); [|discriminate].
      destruct (subscript _ "error") as [err|]; [|discriminate].
      destruct (subscript err "code") as [c|]; [|discriminate].
      destruct (eq_str c "PathNotFound"); intros [= <-]; [right; eexists|left];
        reflexivity. }
  destruct (status_code _ =? codes_ok); cbv beta iota.
  - destruct (resp_json _) as [j|]; cbv beta iota; [|discriminate].
    specialize (H j). destruct (ls_paths j false) as [v'|e]; [exact H|].
    destruct (is_KeyError e); [|discriminate]. exact H.
  - destruct (raise_for_status _); cbv beta iota; [|discriminate].
    destruct (resp_json _) as [j|]; cbv beta iota; [|discriminate].
    specialize (H j). destruct (ls_paths j false) as [v'|e]; [exact H|].
    destruct (is_KeyError e); [|discriminate]. exact H.
Qed.

(** X19: when the probe of a handle's path is not answered OK and the
    listing fallback returns, what [info] hands back is a list of names
    (or None), never an entry; so [_get_size], which subscripts it with
    'size', raises TypeError. *)
Theorem get_size_raises_TypeError_on_listing_fallback
    (provider : list request → request → response) (root_marker : string)
    (w : world) (self : nat) (v : json) :
  let f := files w self in
  let p := _strip_protocol root_marker (path f) in
  let rq := info_request (filesystems w (fs f)) p in
  status_code (provider (log w) rq) ≠ codes_ok →
  (ls provider root_marker (fs f) p false "filesystem" false (logged w [rq])).1 = Ok v →
  (info provider root_marker (fs f) (path f) w).1 = Ok v
  ∧ (_get_size provider root_marker self w).1 = Raise TypeError.
Proof.
  cbv zeta. intros Hs Hls.
  assert (Hinfo : (info provider root_marker (fs (files w self)) (path (files w self)) w).1
                  = Ok v).
  { unfold info. run_monad. unfold logged in Hls.
    rewrite (proj2 (Z.eqb_neq _ _) Hs).
    destruct (ls _ _ _ _ _ _ _ _) as [[v'|e0] w2]; [|discriminate Hls].
    cbn [fst] in Hls. injection Hls as ->. reflexivity. }
  split; [exact Hinfo|].
  unfold _get_size. cbv beta iota zeta delta [mbind M_bind get_file lift].
  destruct (info _ _ _ _ _) as [[d|e] w2]; [|discriminate Hinfo].
  cbn [fst] in Hinfo. injection Hinfo as ->.
  destruct (ls_names_shape _ _ _ _ _ _ _ _ Hls) as [->|[l ->]]; reflexivity.
Qed.

Lemma get_size_raises_TypeError_on_listing_fallback_witness :
  (info Mock.missing_path "" 0 "dir/a.txt" Mock.w0).1 = Ok (JList [])
  ∧ (_get_size Mock.missing_path "" 0 Mock.w0).1 = Raise TypeError.
Proof.
  apply (get_size_raises_TypeError_on_listing_fallback Mock.missing_path "" Mock.w0 0
           (JList [])).
  - discriminate.
  - reflexivity.
Defined.

(** ** [_upload_chunk] *)

(** X20: [_upload_chunk] never returns normally and never sends a PATCH,
    whatever the provider would answer: the append it builds carries
    Content-Length as an [int], which the library refuses with
    InvalidHeader before anything is sent. When the size probe has
    returned, that is the exception raised, and only the GET and HEAD
    requests of the probe have gone out. *)
Theorem upload_chunk_never_sends_a_patch
    (provider : list request → request → response) (root_marker : string)
    (w : world) (self : nat) :
  let f := files w self in
  let a := append_request (filesystems w (fs f)) f (getvalue (buffer f)) in
  let r := _upload_chunk provider root_marker self w in
  headers a !! "Content-Length"
  = Some (SInt (Z.of_nat (String.length (getvalue (buffer f)))))
  ∧ check_header_validity (headers a) = false
  ∧ is_ok r.1 = false
  ∧ quiet (rewound self w) r.2
  ∧ (∀ size w2,
       _get_size provider root_marker self (rewound self w) = (Ok size, w2) →
       r = (Raise InvalidHeader, w2)).
Proof.
  cbv zeta. split; [apply make_headers_Content_Length|].
  split; [apply append_request_invalid|].
  rewrite upload_chunk_unfold.
  pose proof (get_size_quiet provider root_marker self (rewound self w)) as Hq.
  destruct (_get_size provider root_marker self (rewound self w)) as [[sz|e] w2];
    cbn [fst snd is_ok] in *; (split; [reflexivity|]); (split; [exact Hq|]);
    intros size w3 [= _ <-]; reflexivity.
Qed.

(** A provider that would refuse every PATCH is never asked. *)
Example upload_chunk_read_only :
  _upload_chunk read_only "" 0 Mock.w0
  = (Raise InvalidHeader,
     logged (rewound 0 Mock.w0) [info_request Mock.fs0 "dir/a.txt"]).
Proof. vm_compute. reflexivity. Qed.

(** X21: when the size probe raises, [_upload_chunk] raises the same
    exception; up to then only GET and HEAD requests have gone out, so
    none of the buffered data was sent, although the size is not used
    for the upload. *)
Theorem upload_chunk_aborts_when_size_probe_fails
    (provider : list request → request → response) (root_marker : string)
    (w w2 : world) (self : nat) (e : exn) :
  _get_size provider root_marker self (rewound self w) = (Raise e, w2) →
  _upload_chunk provider root_marker self w = (Raise e, w2)
  ∧ quiet (rewound self w) w2.
Proof.
  intros Hsz. split.
  - rewrite upload_chunk_unfold, Hsz. reflexivity.
  - pose proof (get_size_quiet provider root_marker self (rewound self w)) as Hq.
    rewrite Hsz in Hq. exact Hq.
Qed.

Lemma upload_chunk_aborts_when_size_probe_fails_witness :
  _upload_chunk Mock.missing_path "" 0 Mock.w0
  = (Raise TypeError,
     logged (rewound 0 Mock.w0)
       [info_request Mock.fs0 "dir/a.txt";
        ls_request "" Mock.fs0 "dir/a.txt" "filesystem" false])
  ∧ quiet (rewound 0 Mock.w0)
      (logged (rewound 0 Mock.w0)
         [info_request Mock.fs0 "dir/a.txt";
          ls_request "" Mock.fs0 "dir/a.txt" "filesystem" false]).
Proof.
  apply (upload_chunk_aborts_when_size_probe_fails Mock.missing_path "" Mock.w0).
  reflexivity.
Defined.

(** X22: whether it returns or raises, [_upload_chunk] changes no filesystem
    object and no other handle, and of its own handle only the position
    of the buffer, which it sets to 0: the buffered bytes are still there
    afterwards. *)
Theorem upload_chunk_keeps_the_buffered_bytes
    (provider : list request → request → response) (root_marker : string)
    (w : world) (self : nat) :
  let w' := (_upload_chunk provider root_marker self w).2 in
  filesystems w' = filesystems w
  ∧ fresh w' = fresh w
  ∧ (∀ f, f ≠ self → files w' f = files w f)
  ∧ files w' self = with_buffer (files w self)
                      {| getvalue := getvalue (buffer (files w self)); tell := 0 |}.
Proof.
  cbv zeta. rewrite upload_chunk_unfold.
  pose proof (get_size_quiet provider root_marker self (rewound self w)) as Hq.
  destruct (_get_size provider root_marker self (rewound self w)) as [[sz|e] w2];
    cbn [snd] in Hq |- *; destruct Hq as (Hfs & Hfi & Hfr & _);
    cbn [rewound filesystems files fresh] in Hfs, Hfi, Hfr;
    rewrite Hfs, Hfi, Hfr; repeat split;
    try (intros f Hf; apply fn_lookup_insert_ne; congruence);
    rewrite fn_lookup_insert; reflexivity.
Qed.

(** ** [connect] and [__init__] *)

(** X23: whatever the token endpoint answers and whether [connect] returns
    or raises, it issues exactly one request, the POST to the login URL,
    which carries no Authorization header; it touches no handle and no
    other filesystem object, leaves every field of its own object other
    than [token] and [token_type] as it was, and changes the token only
    when it returns. *)
Theorem connect_issues_one_post_and_keeps_the_rest
    (token_endpoint : list request → request → result token_grant)
    (w : world) (self : nat) :
  let o := filesystems w self in
  let w' := (connect token_endpoint self w).2 in
  let o' := filesystems w' self in
  log w' = (log w ++ [connect_request o])%list
  ∧ method (connect_request o) = POST
  ∧ headers (connect_request o) !! "Authorization" = None
  ∧ files w' = files w ∧ fresh w' = fresh w
  ∧ (∀ r, r ≠ self → filesystems w' r = filesystems w r)
  ∧ (tenant_id o', client_id o', client_secret o', storage_account o',
     filesystem o', dns_suffix o')
    = (tenant_id o, client_id o, client_secret o, storage_account o,
       filesystem o, dns_suffix o)
  ∧ (is_ok (connect token_endpoint self w).1 = false → token o' = token o).
Proof.
  cbv zeta. unfold connect.
  cbv beta iota zeta delta [mbind M_bind mret M_ret get_fs set_fs history record lift].
  cbn [log filesystems files fresh].
  destruct (token_endpoint (log w) (connect_request (filesystems w self)))
    as [grant|e]; cbn [fst snd log filesystems files fresh is_ok];
    [|repeat split; reflexivity].
  destruct (grant_token_type grant) as [t|];
    cbn [fst snd log filesystems files fresh is_ok]; [|repeat split; reflexivity].
  assert (Hne : ∀ (a : BlobFS) r, r ≠ self →
                  (<[self := a]> (filesystems w)) r = filesystems w r).
  { intros a r Hr. apply fn_lookup_insert_ne. congruence. }
  destruct (grant_expires_in grant);
    cbn [fst snd log filesystems files fresh is_ok];
    [|rewrite fn_lookup_insert; repeat split; auto].
  destruct (grant_ext_expires_in grant);
    cbn [fst snd log filesystems files fresh is_ok];
    [|rewrite fn_lookup_insert; repeat split; auto].
  destruct (grant_access_token grant);
    cbn [fst snd log filesystems files fresh is_ok];
    [|rewrite fn_lookup_insert; repeat split; auto].
  rewrite fn_lookup_insert. repeat split; try discriminate.
  intros r Hr. rewrite fn_lookup_insert_ne by congruence. auto.
Qed.

(** X24: an answer of the token endpoint that has 'token_type' but lacks
    one of 'expires_in', 'ext_expires_in' and 'access_token' makes
    [connect] raise KeyError for the first of them that is missing, also
    when the access token itself is there; by then the object's
    [token_type] is already the new one, while its token is still the old
    one. *)
Theorem connect_partial_update
    (token_endpoint : list request → request → result token_grant)
    (w : world) (self : nat) (grant : token_grant) (t : string) :
  let o := filesystems w self in
  let r := connect token_endpoint self w in
  token_endpoint (log w) (connect_request o) = Ok grant →
  grant_token_type grant = Some t →
  grant_expires_in grant = None ∨ grant_ext_expires_in grant = None
  ∨ grant_access_token grant = None →
  r.1 = Raise (KeyError
                 (if decide (grant_expires_in grant = None) then "expires_in"
                  else if decide (grant_ext_expires_in grant = None)
                       then "ext_expires_in" else "access_token"))
  ∧ token_type (filesystems r.2 self) = Some t
  ∧ token (filesystems r.2 self) = token o.
Proof.
  cbv zeta. intros Hg Ht Hmiss. unfold connect.
  cbv beta iota zeta delta [mbind M_bind mret M_ret get_fs set_fs history record lift].
  cbn [log filesystems files fresh]. rewrite Hg, Ht.
  cbn [fst snd log filesystems files fresh].
  destruct (grant_expires_in grant) as [e1|];
    [|cbn [fst snd filesystems]; rewrite fn_lookup_insert; repeat split].
  destruct (grant_ext_expires_in grant) as [e2|];
    [|cbn [fst snd filesystems]; rewrite fn_lookup_insert; repeat split].
  destruct (grant_access_token grant) as [tok|];
    [|cbn [fst snd filesystems]; rewrite fn_lookup_insert; repeat split].
  destruct Hmiss as [H|[H|H]]; discriminate H.
Qed.

Lemma connect_partial_update_witness :
  (connect short_grant 0 Mock.w0).1 = Raise (KeyError "ext_expires_in")
  ∧ token_type (filesystems (connect short_grant 0 Mock.w0).2 0) = Some "MAC"
  ∧ token (filesystems (connect short_grant 0 Mock.w0).2 0) = Some "tok1".
Proof.
  apply (connect_partial_update short_grant Mock.w0 0
           {| grant_token_type := Some "MAC"; grant_expires_in := Some 3599;
              grant_ext_expires_in := None; grant_access_token := Some "tok2" |}
           "MAC").
  - reflexivity.
  - reflexivity.
  - right. left. reflexivity.
Defined.

(** X25: the constructor stores its arguments and connects; when the token
    endpoint grants a token, the new object holds the granted token and
    token type and the suffix '.dfs.core.windows.net', whatever was
    passed as [token]: that argument has no effect on the object, and the
    one request issued is the POST of [connect]. *)
Theorem init_overwrites_the_token_argument
    (token_endpoint : list request → request → result token_grant)
    (w : world) (self : nat)
    (tenant_id_ client_id_ client_secret_ storage_account_ filesystem_ : string)
    (token_ : option string) (grant : token_grant) (t tok : string) (e1 e2 : Z) :
  let rq := connect_request
              {| tenant_id := tenant_id_; client_id := client_id_;
                 client_secret := client_secret_;
                 storage_account := storage_account_; filesystem := filesystem_;
                 token := None; token_type := None; dns_suffix := "" |} in
  let r := __init__ token_endpoint self tenant_id_ client_id_ client_secret_
             storage_account_ filesystem_ token_ w in
  token_endpoint (log w) rq = Ok grant →
  grant_token_type grant = Some t →
  grant_expires_in grant = Some e1 →
  grant_ext_expires_in grant = Some e2 →
  grant_access_token grant = Some tok →
  r.1 = Ok tt
  ∧ filesystems r.2 self
    = {| tenant_id := tenant_id_; client_id := client_id_;
         client_secret := client_secret_; storage_account := storage_account_;
         filesystem := filesystem_; token := Some tok; token_type := Some t;
         dns_suffix := ".dfs.core.windows.net" |}
  ∧ log r.2 = (log w ++ [rq])%list.
Proof.
  cbv zeta. intros Hg Ht He1 He2 Htok. unfold __init__, connect.
  cbv beta iota zeta delta [mbind M_bind mret M_ret get_fs set_fs history record lift].
  cbn [log filesystems files fresh]. rewrite !fn_lookup_insert.
  change (connect_request _) with
    (connect_request
       {| tenant_id := tenant_id_; client_id := client_id_;
          client_secret := client_secret_;
          storage_account := storage_account_; filesystem := filesystem_;
          token := None; token_type := None; dns_suffix := "" |}).
  rewrite Hg, Ht, He1, He2, Htok.
  cbn [fst snd log filesystems files fresh]. rewrite !fn_lookup_insert.
  repeat split.
Qed.

Lemma init_overwrites_the_token_argument_witness :
  (__init__ (Mock.grants "tok2") 0 "tenant" "client" "secret" "acct" "data"
            (Some "stale") Mock.w0).1 = Ok tt
  ∧ filesystems (__init__ (Mock.grants "tok2") 0 "tenant" "client" "secret" "acct"
                          "data" (Some "stale") Mock.w0).2 0
    = {| tenant_id := "tenant"; client_id := "client"; client_secret := "secret";
         storage_account := "acct"; filesystem := "data"; token := Some "tok2";
         token_type := Some "Bearer"; dns_suffix := ".dfs.core.windows.net" |}
  ∧ log (__init__ (Mock.grants "tok2") 0 "tenant" "client" "secret" "acct" "data"
                  (Some "stale") Mock.w0).2
    = ([] ++ [connect_request Mock.fs0])%list.
Proof.
  apply (init_overwrites_the_token_argument (Mock.grants "tok2") Mock.w0 0
           "tenant" "client" "secret" "acct" "data" (Some "stale")
           {| grant_token_type := Some "Bearer"; grant_expires_in := Some 3599;
              grant_ext_expires_in := Some 3599; grant_access_token := Some "tok2" |}
           "Bearer" "tok2" 3599 3599); reflexivity.
Defined.

(** ** The URL of a handle *)

Lemma append_assoc (a b c : string) : (a +:+ b) +:+ c = a +:+ (b +:+ c).
Proof.
  induction a as [|x a IH]; [reflexivity|].
  change ((String x a +:+ b) +:+ c) with (String x ((a +:+ b) +:+ c)).
  rewrite IH. reflexivity.
Qed.

(** X26: for a handle whose path is not empty, reading a range and every
    upload request address one and the same URL, the filesystem URL
    followed by '/' and the path as the handle holds it; the probe of
    [info] addresses it too when stripping the protocol leaves the path
    as it is. *)
Theorem handle_requests_share_one_url (root_marker : string) (o : BlobFS)
    (f : BlobFile) (start end_ : option Z) (data_ : string) :
  path f ≠ "" →
  let u := _make_url o None +:+ "/" +:+ path f in
  url (fetch_range_request o f start end_) = u
  ∧ url (initiate_upload_request o f) = u
  ∧ url (append_request o f data_) = u
  ∧ url (flush_request o f data_) = u
  ∧ url (single_shot_request o f) = u
  ∧ (_strip_protocol root_marker (path f) = path f →
     url (info_request o (_strip_protocol root_marker (path f))) = u).
Proof.
  intros Hp. cbv zeta.
  assert (H : _make_url o (Some (path f)) = _make_url o None +:+ "/" +:+ path f).
  { unfold _make_url, nonempty. destruct (path f) as [|a p]; [congruence|].
    cbn [PyStr.is_empty]. rewrite !append_assoc. reflexivity. }
  repeat split; try exact H.
  intros ->. exact H.
Qed.

Lemma handle_requests_share_one_url_witness :
  url (fetch_range_request Mock.fs0 Mock.file0 (Some 0) (Some 5))
  = "https://acct.dfs.core.windows.net/data/dir/a.txt"
  ∧ url (initiate_upload_request Mock.fs0 Mock.file0)
    = "https://acct.dfs.core.windows.net/data/dir/a.txt"
  ∧ url (append_request Mock.fs0 Mock.file0 "hello world")
    = "https://acct.dfs.core.windows.net/data/dir/a.txt"
  ∧ url (flush_request Mock.fs0 Mock.file0 "hello world")
    = "https://acct.dfs.core.windows.net/data/dir/a.txt"
  ∧ url (single_shot_request Mock.fs0 Mock.file0)
    = "https://acct.dfs.core.windows.net/data/dir/a.txt"
  ∧ (_strip_protocol "" (path Mock.file0) = path Mock.file0 →
     url (info_request Mock.fs0 (_strip_protocol "" (path Mock.file0)))
     = "https://acct.dfs.core.windows.net/data/dir/a.txt").
Proof.
  apply (handle_requests_share_one_url "" Mock.fs0 Mock.file0 (Some 0) (Some 5)
           "hello world").
  discriminate.
Defined.

(** ** [AzureDatalakeFileSystem.info] *)

(** X27: the Gen1 [info] returns what the store's [info] returned with
    'size' set to the value found under 'length' and every other key,
    'length' included, as it was; when the store's answer has no
    'length' it raises KeyError and returns nothing. *)
Theorem gen1_info_copies_length_to_size
    (adl_info : Gen1.pyobj → bool → result json) (path : Gen1.pyobj)
    (invalidate_cache : bool) (d : list (string * json)) :
  adl_info path invalidate_cache = Ok (JDict d) →
  match Dict.get "length" d with
  | Some l =>
      ∃ d', Gen1.info adl_info path invalidate_cache = Ok (JDict d')
            ∧ Dict.get "size" d' = Some l
            ∧ ∀ k, k ≠ "size" → Dict.get k d' = Dict.get k d
  | None => Gen1.info adl_info path invalidate_cache = Raise (KeyError "length")
  end.
Proof.
  intros H. unfold Gen1.info. rewrite H. unfold subscript.
  destruct (Dict.get "length" d) as [l|]; [|reflexivity].
  eexists. split; [reflexivity|]. split.
  - apply DictFacts.get_set_eq.
  - intros k Hk. apply DictFacts.get_set_ne. congruence.
Qed.

Lemma gen1_info_copies_length_to_size_witness :
  ∃ d', Gen1.info (λ _ _, Ok (JDict [("length", JInt 11); ("type", JStr "FILE")]))
                  (Gen1.Str "a.txt") true = Ok (JDict d')
        ∧ Dict.get "size" d' = Some (JInt 11)
        ∧ ∀ k, k ≠ "size" →
               Dict.get k d' = Dict.get k [("length", JInt 11); ("type", JStr "FILE")].
Proof.
  apply (gen1_info_copies_length_to_size
           (λ _ _, Ok (JDict [("length", JInt 11); ("type", JStr "FILE")]))
           (Gen1.Str "a.txt") true [("length", JInt 11); ("type", JStr "FILE")]).
  reflexivity.
Defined.
